(** * A shallow embedding of [download_pdf.py] (class [PDFDownloader])

    The downloader fetches PDFs concurrently, writes each one into the
    target folder, and then (optionally) opens every downloaded file with
    PyMuPDF ([fitz]), repairs it with [pikepdf] when it does not open, and
    adds highlight annotations for a list of words.

    The Python code is a sequence of statements that mutate the file
    system, the set of open PyMuPDF documents and the log, and that may
    raise exceptions caught by [try]/[except].  It is modelled in a state
    and exception monad [M]: a computation takes the state and returns
    either an exception or a value, together with the state reached at the
    point where it stopped (effects done before an exception persist, as in
    Python).

    The libraries the code calls (aiohttp, PyMuPDF, pikepdf, tempfile) are
    external: their observable behaviour is an environment [Env] of
    functions of the document bytes, so every theorem below holds for every
    behaviour of those libraries unless it states otherwise. *)

From Stdlib Require Import ZArith Ascii String List Sorted.
From stdpp Require Import base gmap strings list.
Import ListNotations.

Open Scope string_scope.

(** ** State *)

(** A PyMuPDF [Document] object: the bytes it was opened from, the
    highlight annotations added so far (page number, match rectangle) and
    whether [close()] has been called. *)
Record docrec := mkDoc {
  d_content : string;
  d_annots : list (nat * nat);
  d_closed : bool
}.

(** Logging levels of the [logging] calls. *)
Inductive level := LInfo | LWarning | LError.

(** External events: an HTTP request made by [session.get], and a ghost
    marker recorded on entry of [_repair_pdf] (it has no effect; it only
    lets theorems count how often repair is attempted). *)
Inductive event :=
| Request (url : string)
| RepairCall (path : string).

Record st := mkSt {
  fs : gmap string string;     (** files: path -> bytes *)
  docs : gmap nat docrec;      (** PyMuPDF documents created so far *)
  next_doc : nat;              (** identity of the next document object *)
  trace : list event;          (** network requests and repair markers *)
  log : list level             (** records emitted by [logging] *)
}.

Definition set_fs (f : gmap string string) (s : st) : st :=
  mkSt f (docs s) (next_doc s) (trace s) (log s).
Definition set_docs (d : gmap nat docrec) (s : st) : st :=
  mkSt (fs s) d (next_doc s) (trace s) (log s).
Definition add_event (e : event) (s : st) : st :=
  mkSt (fs s) (docs s) (next_doc s) (trace s ++ [e]) (log s).
Definition add_log (l : level) (s : st) : st :=
  mkSt (fs s) (docs s) (next_doc s) (trace s) (log s ++ [l]).

(** ** The state and exception monad *)

Definition exn := string.
Definition M (A : Type) : Type := st -> (exn + A) * st.

Definition ret {A} (a : A) : M A := fun s => (inr a, s).
Definition bind {A B} (m : M A) (k : A -> M B) : M B :=
  fun s => match m s with
           | (inr a, s') => k a s'
           | (inl e, s') => (inl e, s')
           end.
Definition raise {A} (e : exn) : M A := fun s => (inl e, s).
(** [try: m except Exception as e: h e] *)
Definition catch {A} (m : M A) (h : exn -> M A) : M A :=
  fun s => match m s with
           | (inl e, s') => h e s'
           | r => r
           end.
(** Run [m] and reify its exception, if any, as a value. *)
Definition attempt {A} (m : M A) : M (exn + A) :=
  fun s => match m s with
           | (inl e, s') => (inr (inl e), s')
           | (inr a, s') => (inr (inr a), s')
           end.

Declare Scope monad_scope.
Delimit Scope monad_scope with monad.
Notation "x <- m ;; k" := (bind m (fun x => k))
  (at level 100, m at next level, right associativity) : monad_scope.
Notation "m ;; k" := (bind m (fun _ => k))
  (at level 100, right associativity) : monad_scope.
Open Scope monad_scope.

Definition log_ (l : level) : M unit := fun s => (inr tt, add_log l s).

(** ** Environment: the behaviour of the external libraries *)

Record Env := mkEnv {
  target_folder : string;                 (** [self.target_folder] *)
  tmp_dir : string;                       (** [tempfile.gettempdir()] *)
  tmp_names : list string;                (** the names [tempfile] tries, in order *)
  http_get : string -> option (Z * string);
      (** [session.get(url)] then [response.read()]: status and body,
          [None] when aiohttp raises (connection error, timeout, ...) *)
  writable : string -> bool;              (** [aiofiles.open(path, 'wb')] succeeds *)
  write_ok : string -> string -> bool;
      (** [await f.write(content)] and the closing of the file succeed *)
  write_partial : string -> string -> string;
      (** what the file holds when that write or the closing raises (disk
          full, ...): the open has already created or truncated it *)
  fz_open_ok : string -> bool;            (** [fitz.open] accepts these bytes *)
  fz_npages : string -> nat;              (** [len(doc)] *)
  fz_page_ok : string -> nat -> bool;     (** [doc[i]] loads page [i] (for [i < len(doc)]) *)
  fz_search : string -> nat -> string -> option (list nat);
      (** [page.search_for(word)]: the match rectangles, [None] if it raises *)
  fz_add_ok : string -> nat -> nat -> bool;    (** [page.add_highlight_annot(inst)] *)
  fz_style_ok : string -> nat -> nat -> bool;  (** [set_colors] then [update()] *)
  fz_save_ok : string -> bool;            (** [doc.save(path)] succeeds *)
  fz_render : string -> list (nat * nat) -> string;  (** bytes [doc.save] writes *)
  pk_rewrite : string -> option string
      (** [pikepdf.open(..)] then [pdf.save(..)]: the rewritten bytes,
          [None] when either raises *)
}.

Section Program.
Variable E : Env.

(** ** Paths and URLs *)

(** [s.split('/')] *)
Fixpoint split_slash (s : string) : list string :=
  match s with
  | EmptyString => [EmptyString]
  | String c s' =>
      match split_slash s' with
      | seg :: rest =>
          if Ascii.eqb c "/"%char then EmptyString :: seg :: rest
          else String c seg :: rest
      | [] => [String c EmptyString]
      end
  end.

(** [s.split('/')[-1]]; on paths this is also [Path.name]. *)
Definition last_segment (s : string) : string := List.last (split_slash s) "".

Fixpoint join_slash (l : list string) : string :=
  match l with
  | [] => ""
  | [x] => x
  | x :: l' => x +:+ "/" +:+ join_slash l'
  end.

(** Paths are written [dir/name]; the target folder is a normalised
    non-empty folder name (no trailing slash), as [Path] prints it. *)
Definition path_join (dir name : string) : string := dir +:+ "/" +:+ name.
Definition path_name (p : string) : string := last_segment p.
Definition path_parent (p : string) : string :=
  join_slash (List.removelast (split_slash p)).

(** [_get_filename_from_url] *)
Definition get_filename_from_url (url : string) : string := last_segment url.

(** ** Primitive effects *)

Definition session_get (url : string) : M (Z * string) :=
  fun s => let s' := add_event (Request url) s in
           match http_get E url with
           | Some r => (inr r, s')
           | None => (inl "ClientError", s')
           end.

(** [async with aiofiles.open(p, 'wb') as f: await f.write(c)] *)
Definition write_file (p c : string) : M unit :=
  fun s => if writable E p then
             if write_ok E p c then (inr tt, set_fs (<[p := c]> (fs s)) s)
             else (inl "OSError", set_fs (<[p := write_partial E p c]> (fs s)) s)
           else (inl "OSError", s).

Definition read_file (p : string) : M string :=
  fun s => match fs s !! p with
           | Some c => (inr c, s)
           | None => (inl "FileNotFoundError", s)
           end.

(** [Path.unlink()] *)
Definition unlink (p : string) : M unit :=
  fun s => match fs s !! p with
           | Some _ => (inr tt, set_fs (delete p (fs s)) s)
           | None => (inl "FileNotFoundError", s)
           end.

(** [Path.exists()] *)
Definition path_exists (p : string) : M bool :=
  fun s => (inr (bool_decide (is_Some (fs s !! p))), s).

(** [NamedTemporaryFile(delete=False, suffix='.pdf')]: [tempfile] tries the
    candidate names in turn and creates (empty, with [O_EXCL]) the first one
    that does not exist; when every candidate exists it raises
    [FileExistsError].  The [with] block closes the handle at once. *)
Fixpoint first_free (names : list string) (f : gmap string string) : option string :=
  match names with
  | [] => None
  | n :: ns =>
      let p := path_join (tmp_dir E) (n +:+ ".pdf") in
      if bool_decide (is_Some (f !! p)) then first_free ns f else Some p
  end.

Definition named_tmp : M string :=
  fun s => match first_free (tmp_names E) (fs s) with
           | Some p => (inr p, set_fs (<[p := ""]> (fs s)) s)
           | None => (inl "FileExistsError", s)
           end.

(** [with pikepdf.open(src, allow_overwriting_input=True) as pdf: pdf.save(dst)] *)
Definition pike_repair (src dst : string) : M unit :=
  c <- read_file src ;;
  match pk_rewrite E c with
  | Some c' => fun s => (inr tt, set_fs (<[dst := c']> (fs s)) s)
  | None => raise "PdfError"
  end.

(** *** PyMuPDF *)

(** [fitz.open(path)]: a new document object, identified by a number. *)
Definition fitz_open (p : string) : M nat :=
  c <- read_file p ;;
  if fz_open_ok E c then
    fun s => (inr (next_doc s),
              mkSt (fs s) (<[next_doc s := mkDoc c [] false]> (docs s))
                   (S (next_doc s)) (trace s) (log s))
  else raise "FileDataError".

(** Operations on a closed document raise [ValueError('document closed')]. *)
Definition get_doc (d : nat) : M docrec :=
  fun s => match docs s !! d with
           | Some r => if d_closed r then (inl "document closed", s) else (inr r, s)
           | None => (inl "document closed", s)
           end.

(** [doc[i]] *)
Definition load_page (d i : nat) : M unit :=
  r <- get_doc d ;;
  if Nat.ltb i (fz_npages E (d_content r)) && fz_page_ok E (d_content r) i
  then ret tt else raise "IndexError".

(** [len(doc)] *)
Definition doc_len (d : nat) : M nat :=
  r <- get_doc d ;; ret (fz_npages E (d_content r)).

(** Truth value of a document, as in [if doc:]: [Document] defines
    [__len__] and no [__bool__], so this is [len(doc) != 0]. *)
Definition doc_truthy (d : nat) : M bool :=
  n <- doc_len d ;; ret (negb (Nat.eqb n 0)).

(** [doc.close()] *)
Definition doc_close (d : nat) : M unit :=
  fun s => match docs s !! d with
           | Some r => (inr tt, set_docs (<[d := mkDoc (d_content r) (d_annots r) true]> (docs s)) s)
           | None => (inr tt, s)
           end.

(** [page.search_for(word)] on page [i] *)
Definition search_for (d i : nat) (w : string) : M (list nat) :=
  r <- get_doc d ;;
  match fz_search E (d_content r) i w with
  | Some rs => ret rs
  | None => raise "search error"
  end.

(** [highlight = page.add_highlight_annot(inst)], then
    [highlight.set_colors(stroke=(1, 1, 0))] and [highlight.update()]:
    the annotation is in the document as soon as the first call returns. *)
Definition add_highlight (d i inst : nat) : M unit :=
  r <- get_doc d ;;
  let c := d_content r in
  if fz_add_ok E c i inst then
    (fun s => (inr tt, set_docs (<[d := mkDoc c (d_annots r ++ [(i, inst)]) false]> (docs s)) s)) ;;
    (if fz_style_ok E c i inst then ret tt else raise "annotation error")
  else raise "annotation error".

(** [doc.save(path)] *)
Definition doc_save (d : nat) (p : string) : M unit :=
  r <- get_doc d ;;
  if fz_save_ok E p then
    fun s => (inr tt, set_fs (<[p := fz_render E (d_content r) (d_annots r)]> (fs s)) s)
  else raise "save error".

(** ** The downloader *)

(** [_download_pdf] *)
Definition download_pdf (url : string) : M (option string) :=
  let filename := get_filename_from_url url in
  let filepath := path_join (target_folder E) filename in
  catch
    (resp <- session_get url ;;
     let '(status, content) := resp in
     if Z.eqb status 200 then
       if String.eqb (substring 0 4 content) "%PDF" then
         write_file filepath content ;;
         log_ LInfo ;;
         ret (Some filepath)
       else
         log_ LError ;; ret None
     else
       log_ LError ;; ret None)
    (fun _ => log_ LError ;; ret None).

(** [asyncio.gather] over the tasks: the results come back in the order of the
    tasks.  The tasks run concurrently; the result of each depends only on
    its own URL (see [download_pdf_spec]), so the schedule below, one task
    after the other, does not change the returned list. *)
Fixpoint gather (urls : list string) : M (list (option string)) :=
  match urls with
  | [] => ret []
  | u :: us => r <- download_pdf u ;; rs <- gather us ;; ret (r :: rs)
  end.

(** [[path for path in results if path is not None]] *)
Fixpoint somes {A} (l : list (option A)) : list A :=
  match l with
  | [] => []
  | Some x :: l' => x :: somes l'
  | None :: l' => somes l'
  end.

(** [_download_all] *)
Definition download_all (urls : list string) : M (list string) :=
  results <- gather urls ;; ret (somes results).

(** [_repair_pdf].  [repaired_path] is bound once the temporary file has
    been created; the [except] branch deletes it only when it is bound. *)
Definition repair_pdf (pdf_path : string) : M (option string) :=
  (fun s => (inr tt, add_event (RepairCall pdf_path) s)) ;;
  t <- attempt named_tmp ;;
  match t with
  | inl _ => log_ LError ;; ret None
  | inr repaired_path =>
      r <- attempt (pike_repair pdf_path repaired_path) ;;
      match r with
      | inr _ => ret (Some repaired_path)
      | inl _ =>
          log_ LError ;;
          b <- path_exists repaired_path ;;
          (if b then unlink repaired_path else ret tt) ;;
          ret None
      end
  end.

(** ** [_highlight_words] *)

(** [if 'doc' in locals() and doc: doc.close()]; [doc_bound] is the
    current binding of the local [doc], if any. *)
Definition close_if_truthy (doc_bound : option nat) : M unit :=
  match doc_bound with
  | None => ret tt
  | Some d => b <- doc_truthy d ;; if b then doc_close d else ret tt
  end.

(** The [except] branch of the re-validation of the repaired file. *)
Definition revalidation_failed (doc_bound : option nat) (repaired_path : string)
  : M (option (nat * string)) :=
  log_ LError ;;
  close_if_truthy doc_bound ;;
  unlink repaired_path ;;
  ret None.

(** The [except] branch of the first validation: lines 152-173.  The
    result [None] stands for [return False]; [Some (doc, pdf_path)] for
    going on with the open document [doc] and the (possibly rebound) local
    [pdf_path].  When [fitz.open(repaired_path)] raises, the local [doc]
    keeps its earlier binding. *)
Definition repair_branch (doc_bound : option nat) (pdf_path : string)
  : M (option (nat * string)) :=
  log_ LWarning ;;
  close_if_truthy doc_bound ;;
  rp <- repair_pdf pdf_path ;;
  match rp with
  | None => ret None
  | Some repaired_path =>
      o <- attempt (fitz_open repaired_path) ;;
      match o with
      | inr d2 =>
          v <- attempt (load_page d2 0) ;;
          match v with
          | inr _ => log_ LInfo ;; ret (Some (d2, repaired_path))
          | inl _ => revalidation_failed (Some d2) repaired_path
          end
      | inl _ => revalidation_failed doc_bound repaired_path
      end
  end.

(** Lines 146-173: open and validate, repairing on failure. *)
Definition open_or_repair (pdf_path : string) : M (option (nat * string)) :=
  o <- attempt (fitz_open pdf_path) ;;
  match o with
  | inr doc =>
      v <- attempt (load_page doc 0) ;;
      match v with
      | inr _ => ret (Some (doc, pdf_path))
      | inl _ => repair_branch (Some doc) pdf_path
      end
  | inl _ => repair_branch None pdf_path
  end.

(** The loops of lines 178-202.  The accumulator is the pair of locals
    [(num_highlights, has_errors)]. *)
Fixpoint insts_loop (doc page_num : nat) (instances : list nat) (acc : nat * bool)
  : M (nat * bool) :=
  match instances with
  | [] => ret acc
  | inst :: rest =>
      acc' <- catch (add_highlight doc page_num inst ;; ret (S (fst acc), snd acc))
                    (fun _ => log_ LWarning ;; ret (fst acc, true)) ;;
      insts_loop doc page_num rest acc'
  end.

Fixpoint words_loop (doc page_num : nat) (words : list string) (acc : nat * bool)
  : M (nat * bool) :=
  match words with
  | [] => ret acc
  | word :: rest =>
      acc' <- catch (instances <- search_for doc page_num word ;;
                     insts_loop doc page_num instances acc)
                    (fun _ => log_ LWarning ;; ret (fst acc, true)) ;;
      words_loop doc page_num rest acc'
  end.

Fixpoint pages_loop (doc : nat) (words : list string) (pages : list nat) (acc : nat * bool)
  : M (nat * bool) :=
  match pages with
  | [] => ret acc
  | page_num :: rest =>
      acc' <- catch (load_page doc page_num ;; words_loop doc page_num words acc)
                    (fun _ => log_ LWarning ;; ret (fst acc, true)) ;;
      pages_loop doc words rest acc'
  end.

(** [for page_num in range(len(doc)): ...] starting from
    [num_highlights = 0], [has_errors = False]. *)
Definition page_loop (doc : nat) (words : list string) : M (nat * bool) :=
  n <- doc_len doc ;;
  pages_loop doc words (seq 0 n) (0, false).

(** Lines 175-218, on the open document [doc] and the local [pdf_path]. *)
Definition annotate_and_save (doc : nat) (pdf_path : string) (words : list string) : M bool :=
  res <- page_loop doc words ;;
  let '(num_highlights, has_errors) := res in
  cont <- (if Nat.ltb 0 num_highlights then
             r <- attempt (let highlighted_path :=
                             path_join (path_parent pdf_path) ("highlighted_" +:+ path_name pdf_path) in
                           doc_save doc highlighted_path ;; log_ LInfo) ;;
             match r with
             | inl _ => log_ LError ;; ret false
             | inr _ => ret true
             end
           else log_ LInfo ;; ret true) ;;
  if cont then doc_close doc ;; ret true else ret false.

(** [_highlight_words] *)
Definition highlight_words (pdf_path : string) (words : list string) : M bool :=
  catch
    (r <- open_or_repair pdf_path ;;
     match r with
     | None => ret false
     | Some (doc, pdf_path') => annotate_and_save doc pdf_path' words
     end)
    (fun _ => log_ LError ;; ret false).

(** ** [download_pdfs] *)

(** The argument [highlight_words: Union[str, List[str]] = None]. *)
Inductive words_arg :=
| WNone
| WStr (w : string)
| WList (ws : list string).

(** Truth value of [highlight_words]. *)
Definition words_truthy (hw : words_arg) : bool :=
  match hw with
  | WNone => false
  | WStr w => negb (String.eqb w "")
  | WList ws => negb (bool_decide (ws = []))
  end.

(** [if isinstance(highlight_words, str): highlight_words = [highlight_words]] *)
Definition words_list (hw : words_arg) : list string :=
  match hw with
  | WNone => []
  | WStr w => [w]
  | WList ws => ws
  end.

(** [for pdf_path in downloaded_files: ...], accumulating [highlighted_files]. *)
Fixpoint highlight_all (files : list string) (words : list string) (highlighted : list string)
  : M (list string) :=
  match files with
  | [] => ret highlighted
  | f :: rest =>
      ok <- highlight_words f words ;;
      (if ok then highlight_all rest words (highlighted ++ [f])
       else log_ LWarning ;; highlight_all rest words highlighted)
  end.

Definition download_pdfs (urls : list string) (hw : words_arg) : M (list string) :=
  match urls with
  | [] => log_ LWarning ;; ret []
  | _ =>
      log_ LInfo ;;
      downloaded_files <- download_all urls ;;
      (if words_truthy hw && negb (bool_decide (downloaded_files = []))
       then highlight_all downloaded_files (words_list hw) [] ;; ret tt
       else ret tt) ;;
      log_ LInfo ;;
      ret downloaded_files
  end.

End Program.

(** * A shallow embedding of [parldocs_trefwoord.py] (class [ParliamentaryDocuments])

    The class queries the SRU endpoint of overheid.nl page by page, builds
    a record (a dict of strings) for each [sru:record] element, collects
    the PDF URLs of the records and writes the records to a CSV file; its
    [main] hands the URLs to [PDFDownloader.download_pdfs].

    A Python [str] is a sequence of code points; the model covers text
    whose code points are below 256, each one an [ascii].  The HTTP client
    ([requests.get]) and the XML parser ([ElementTree.fromstring]) are
    external: their behaviour is a [ParlEnv]. *)

(** ** Python string operations *)

(** [str.isspace()] of a code point below 256: [\t \n \v \f \r], the
    separators [\x1c]-[\x1f], the space, [\x85] and [\xa0]. *)
Definition py_isspace (c : ascii) : bool :=
  let n := nat_of_ascii c in
  (Nat.leb 9 n && Nat.leb n 13) || (Nat.leb 28 n && Nat.leb n 32) ||
  Nat.eqb n 133 || Nat.eqb n 160.

Fixpoint lstrip (s : string) : string :=
  match s with
  | EmptyString => EmptyString
  | String c s' => if py_isspace c then lstrip s' else s
  end.

Fixpoint rstrip (s : string) : string :=
  match s with
  | EmptyString => EmptyString
  | String c s' =>
      let r := rstrip s' in
      if py_isspace c && String.eqb r "" then EmptyString else String c r
  end.

(** [s.strip()] *)
Definition strip (s : string) : string := rstrip (lstrip s).

(** [sep.join(l)] *)
Fixpoint str_join (sep : string) (l : list string) : string :=
  match l with
  | [] => ""
  | [x] => x
  | x :: l' => x +:+ sep +:+ str_join sep l'
  end.

(** The value of a decimal digit. *)
Definition digit_val (c : ascii) : option Z :=
  let n := nat_of_ascii c in
  if Nat.leb 48 n && Nat.leb n 57 then Some (Z.of_nat (n - 48)) else None.

(** The rest of a decimal literal after its first digit: digits, with
    single underscores between digits; [after_us] says that the previous
    character was an underscore. *)
Fixpoint digits_from (s : string) (acc : Z) (after_us : bool) : option Z :=
  match s with
  | EmptyString => if after_us then None else Some acc
  | String c s' =>
      match digit_val c with
      | Some d => digits_from s' (acc * 10 + d) false
      | None =>
          if Ascii.eqb c "_"%char && negb after_us then digits_from s' acc true
          else None
      end
  end.

Definition unsigned_int (s : string) : option Z :=
  match s with
  | String c s' =>
      match digit_val c with
      | Some d => digits_from s' d false
      | None => None
      end
  | EmptyString => None
  end.

(** [int(s)] for a [str]: surrounding whitespace, an optional sign and a
    decimal literal; [None] where it raises [ValueError]. *)
Definition py_int (s : string) : option Z :=
  match strip s with
  | String c t =>
      if Ascii.eqb c "-"%char then option_map Z.opp (unsigned_int t)
      else if Ascii.eqb c "+"%char then unsigned_int t
      else unsigned_int (String c t)
  | EmptyString => None
  end.

(** ** ElementTree *)

(** An element: its tag (with the namespace as [{uri}local]), its [text]
    and its children. *)
#[warnings="-register-all"]
Inductive xml := Elem (tag : string) (text : option string) (children : list xml).

Definition tag_of (x : xml) : string := match x with Elem t _ _ => t end.
Definition text_of (x : xml) : option string := match x with Elem _ t _ => t end.
Definition children_of (x : xml) : list xml := match x with Elem _ _ ks => ks end.

(** [elem.iter()]: the element and all its descendants, in document order. *)
Fixpoint iter_xml (x : xml) : list xml :=
  match x with
  | Elem _ _ ks =>
      x :: (fix go (l : list xml) : list xml :=
              match l with
              | [] => []
              | k :: l' => (iter_xml k ++ go l')%list
              end) ks
  end.

Definition has_tag (t : string) (e : xml) : bool := String.eqb (tag_of e) t.

(** [elem.find(t)]: the first child with tag [t]. *)
Definition find_child (x : xml) (t : string) : option xml :=
  List.find (has_tag t) (children_of x).

(** [elem.find('.//' + t)] and [elem.findall('.//' + t)]: the descendants
    (the element itself excluded) with tag [t], in document order. *)
Definition find_desc (x : xml) (t : string) : option xml :=
  List.find (has_tag t) (tl (iter_xml x)).
Definition findall_desc (x : xml) (t : string) : list xml :=
  List.filter (has_tag t) (tl (iter_xml x)).

(** [elem.findtext('.//' + t, default=d)] *)
Definition findtext_desc (x : xml) (t : string) (d : string) : string :=
  match find_desc x t with
  | Some e => match text_of e with Some s => s | None => "" end
  | None => d
  end.

(** [prefix:local] resolved through [self.ns]. *)
Definition qname (uri local : string) : string := "{" +:+ uri +:+ "}" +:+ local.

Definition ns_sru : string := "http://docs.oasis-open.org/ns/search-ws/sruResponse".
Definition ns_dcterms : string := "http://purl.org/dc/terms/".
Definition ns_wetgeving : string := "http://standaarden.overheid.nl/wetgeving/".
Definition ns_diag : string := "http://docs.oasis-open.org/ns/search-ws/diagnostic".

(** ** [__init__] *)

(** The argument [search_terms: Union[str, List[str]]]. *)
Inductive terms_arg :=
| TStr (t : string)
| TList (ts : list string).

(** The double quote character. *)
Definition dq : string := String "034"%char EmptyString.

(** [f'cql.serverChoice="{term}"'] *)
Definition clause (term : string) : string := "cql.serverChoice=" +:+ dq +:+ term +:+ dq.

(** The entries of [self.params] that vary ([operation] is always
    [searchRetrieve] and [version] is always [1.2]). *)
Record sru_params := mkParams {
  p_query : string;
  p_maximumRecords : Z;
  p_startRecord : Z
}.

(** The attributes of a [ParliamentaryDocuments] object. *)
Record pd := mkPD {
  search_terms : list string;
  max_per_page : Z;
  start_record : Z;
  params : sru_params
}.

Definition init_pd (terms : terms_arg) (max_per_page : Z) : pd :=
  let ts := match terms with TStr t => [t] | TList ts => ts end in
  let query := str_join " OR " (map clause ts) in
  mkPD ts max_per_page 1 (mkParams query max_per_page 1).

(** ** [_build_record] *)

(** A record: a [dict] from field names to strings. *)
Definition dict := gmap string string.

Definition empty_record : dict :=
  list_to_map [("identifier", ""); ("title", ""); ("type", ""); ("creator", "");
               ("modified", ""); ("dossiernummer", ""); ("ondernummer", "");
               ("publicatienaam", ""); ("vergaderjaar", "")].

(** The fields of a record and the element each one is read from. *)
Definition record_fields : list (string * string) :=
  [("identifier", qname ns_dcterms "identifier");
   ("title", qname ns_dcterms "title");
   ("type", qname ns_dcterms "type");
   ("creator", qname ns_dcterms "creator");
   ("modified", qname ns_dcterms "modified");
   ("dossiernummer", qname ns_wetgeving "dossiernummer");
   ("ondernummer", qname ns_wetgeving "ondernummer");
   ("publicatienaam", qname ns_wetgeving "publicatienaam");
   ("vergaderjaar", qname ns_wetgeving "vergaderjaar")].

(** [element.text.strip() if element is not None and element.text else ""] *)
Definition field_value (element : option xml) : string :=
  match element with
  | Some e =>
      match text_of e with
      | Some t => if String.eqb t "" then "" else strip t
      | None => ""
      end
  | None => ""
  end.

Definition pdf_url_prefix : string := "https://zoek.officielebekendmakingen.nl/".

(** [_build_record]; the key ["identifier"] is always present in
    [record], so [record["identifier"]] does not raise. *)
Definition build_record (rec : xml) : dict :=
  match find_child rec (qname ns_sru "recordData") with
  | None => empty_record
  | Some recorddata =>
      let record : dict :=
        list_to_map (map (fun '(field, t) => (field, field_value (find_desc recorddata t)))
                         record_fields) in
      let identifier := match record !! "identifier" with Some v => v | None => "" end in
      if String.eqb identifier "" then <["pdf_url" := ""]> record
      else <["pdf_url" := pdf_url_prefix +:+ identifier +:+ ".pdf"]> record
  end.

(** ** [write_csv]: the [csv] module with its default dialect *)

Definition csv_fieldnames : list string :=
  ["identifier"; "title"; "type"; "creator"; "modified";
   "dossiernummer"; "ondernummer"; "publicatienaam"; "vergaderjaar"; "pdf_url"].

Fixpoint str_existsb (f : ascii -> bool) (s : string) : bool :=
  match s with
  | EmptyString => false
  | String c s' => f c || str_existsb f s'
  end.

(** Characters that make the writer quote a field ([QUOTE_MINIMAL]): the
    delimiter, the quote character and those of the line terminator. *)
Definition csv_special (c : ascii) : bool :=
  Ascii.eqb c ","%char || Ascii.eqb c "034"%char || Ascii.eqb c "013"%char || Ascii.eqb c "010"%char.

(** [doublequote=True]: a quote inside a quoted field is written twice. *)
Fixpoint double_quotes (s : string) : string :=
  match s with
  | EmptyString => EmptyString
  | String c s' =>
      if Ascii.eqb c "034"%char then String c (String c (double_quotes s'))
      else String c (double_quotes s')
  end.

Definition csv_field (v : string) : string :=
  if str_existsb csv_special v then dq +:+ double_quotes v +:+ dq else v.

Definition crlf : string := String "013"%char (String "010"%char EmptyString).

(** [writer.writerow(fields)]; a row made of one empty field is written
    as a quoted empty string. *)
Definition csv_row (fields : list string) : string :=
  let body := str_join "," (map csv_field fields) in
  (if String.eqb body "" && negb (bool_decide (fields = [])) then dq +:+ dq else body) +:+ crlf.

(** [DictWriter._dict_to_list] with [extrasaction='raise'] and
    [restval=""]: [None] when the dict has a key outside [fieldnames]. *)
Definition dict_to_list (fieldnames : list string) (rowdict : dict) : option (list string) :=
  if forallb (fun kv => bool_decide (kv.1 ∈ fieldnames)) (map_to_list rowdict)
  then Some (map (fun k => match rowdict !! k with Some v => v | None => "" end) fieldnames)
  else None.

(** The rows of [for record in records: writer.writerow(record)]: the text
    written, and the exception that stopped the loop, if any. *)
Fixpoint csv_rows (records : list dict) : string * option exn :=
  match records with
  | [] => ("", None)
  | r :: rs =>
      match dict_to_list csv_fieldnames r with
      | Some fields => let '(t, e) := csv_rows rs in (csv_row fields +:+ t, e)
      | None => ("", Some "ValueError")
      end
  end.

(** ** Environment and state *)

Record ParlEnv := mkParlEnv {
  sru_get : sru_params -> option (Z * string);
      (** [requests.get(SRU_ENDPOINT, params=self.params, timeout=10)]:
          status and [response.content]; [None] when it raises a
          [RequestException] *)
  xml_parse : string -> option xml;      (** [ET.fromstring]; [None] on [ParseError] *)
  csv_removable : string -> bool;        (** [os.remove(csv_path)] succeeds *)
  csv_writable : string -> bool;         (** [open(csv_path, mode="w", ...)] succeeds *)
  csv_write_ok : string -> string -> bool;
      (** writing this text to the opened file, up to its closing, succeeds *)
  csv_partial : string -> string -> string
      (** what the file holds when writing this text or closing raises *)
}.

Record pstate := mkPS {
  obj : pd;                     (** the [ParliamentaryDocuments] object *)
  sent : list sru_params;       (** the requests made, with their parameters *)
  pfs : gmap string string;     (** files: path -> text *)
  plog : list level             (** records emitted by [logging] *)
}.

Definition ps_send (p : sru_params) (s : pstate) : pstate :=
  mkPS (obj s) (sent s ++ [p])%list (pfs s) (plog s).
Definition ps_log (l : level) (s : pstate) : pstate :=
  mkPS (obj s) (sent s) (pfs s) (plog s ++ [l])%list.
Definition set_obj (o : pd) (s : pstate) : pstate :=
  mkPS o (sent s) (pfs s) (plog s).
Definition set_pfs (f : gmap string string) (s : pstate) : pstate :=
  mkPS (obj s) (sent s) f (plog s).

(** [self.start_record = n] *)
Definition set_start_record (n : Z) (o : pd) : pd :=
  mkPD (search_terms o) (max_per_page o) n (params o).
(** [self.params["startRecord"] = n] *)
Definition set_param_start (n : Z) (o : pd) : pd :=
  mkPD (search_terms o) (max_per_page o) (start_record o)
       (mkParams (p_query (params o)) (p_maximumRecords (params o)) n).

Section Parl.
Variable PE : ParlEnv.

(** [raise_for_status()] raises for the statuses 400 to 599. *)
Definition http_error (status : Z) : bool := (400 <=? status)%Z && (status <? 600)%Z.

(** [_fetch_and_parse_xml] *)
Definition fetch_and_parse_xml (s : pstate) : option xml * pstate :=
  let s1 := ps_send (params (obj s)) s in
  match sru_get PE (params (obj s)) with
  | Some (status, content) =>
      if http_error status then (None, ps_log LError s1)
      else
        match xml_parse PE content with
        | Some root => (Some root, s1)
        | None => (None, ps_log LError s1)
        end
  | None => (None, ps_log LError s1)
  end.

(** [_has_diagnostic_error] *)
Definition has_diagnostic_error (root : xml) (s : pstate) : bool * pstate :=
  match find_desc root (qname ns_diag "diagnostic") with
  | Some _ => (true, ps_log LError s)
  | None => (false, s)
  end.

(** [for rec in recs: ...] in [fetch_records]; [None] when
    [record["pdf_url"]] raises [KeyError]. *)
Fixpoint collect (recs : list xml) (records : list dict) (pdf_urls : list string)
  : option (list dict * list string) :=
  match recs with
  | [] => Some (records, pdf_urls)
  | rec :: rest =>
      let record := build_record rec in
      match record !! "pdf_url" with
      | Some u => collect rest (records ++ [record])%list
                          (if String.eqb u "" then pdf_urls else pdf_urls ++ [u])%list
      | None => None
      end
  end.

(** The [while True] loop of [fetch_records], one pass per unit of [fuel]:
    [None] when the loop has not stopped after [fuel] passes. *)
Fixpoint fetch_loop (fuel : nat) (records : list dict) (pdf_urls : list string) (s : pstate)
  : option ((exn + (list dict * list string)) * pstate) :=
  match fuel with
  | O => None
  | S fuel' =>
      let '(root, s1) := fetch_and_parse_xml s in
      match root with
      | None => Some (inr (records, pdf_urls), s1)
      | Some root =>
          let '(diag, s2) := has_diagnostic_error root s1 in
          if diag then Some (inr (records, pdf_urls), s2) else
          let recs := findall_desc root (qname ns_sru "record") in
          match recs with
          | [] => Some (inr (records, pdf_urls), s2)
          | _ :: _ =>
              match collect recs records pdf_urls with
              | None => Some (inl "KeyError", s2)
              | Some (records', pdf_urls') =>
                  match py_int (findtext_desc root (qname ns_sru "numberOfRecords") "0") with
                  | None => Some (inl "ValueError", s2)
                  | Some total =>
                      let start := (start_record (obj s2) + Z.of_nat (length recs))%Z in
                      let s3 := set_obj (set_start_record start (obj s2)) (ps_log LInfo s2) in
                      if (total <? start)%Z then Some (inr (records', pdf_urls'), s3)
                      else fetch_loop fuel' records' pdf_urls'
                             (set_obj (set_param_start start (obj s3)) s3)
                  end
              end
          end
      end
  end.

(** [fetch_records] *)
Definition fetch_records (fuel : nat) (s : pstate)
  : option ((exn + (list dict * list string)) * pstate) :=
  fetch_loop fuel [] [] s.

(** [write_csv]: [os.remove] of an existing file may raise (read-only
    directory, locked file), and then nothing else happens; a failed open
    raises [OSError].  The text the [with] block writes is the header and
    the rows up to the one that raises; when writing it or closing the file
    raises (disk full, ...), [OSError] ends the block, also after a
    [ValueError], and the file keeps what was written.  Otherwise the file
    holds that text. *)
Definition write_csv (records : list dict) (csv_path : string) (s : pstate)
  : (exn + unit) * pstate :=
  let removed := match pfs s !! csv_path with
                 | Some _ =>
                     if csv_removable PE csv_path
                     then inr (ps_log LInfo (set_pfs (delete csv_path (pfs s)) s))
                     else inl "OSError"
                 | None => inr s
                 end in
  match removed with
  | inl e => (inl e, s)
  | inr s1 =>
      if csv_writable PE csv_path then
        let '(rows, err) := csv_rows records in
        let text := csv_row csv_fieldnames +:+ rows in
        if csv_write_ok PE csv_path text then
          let s2 := set_pfs (<[csv_path := text]> (pfs s1)) s1 in
          match err with
          | Some e => (inl e, s2)
          | None => (inr tt, ps_log LInfo s2)
          end
        else (inl "OSError", set_pfs (<[csv_path := csv_partial PE csv_path text]> (pfs s1)) s1)
      else (inl "OSError", s1)
  end.

End Parl.

(** ** Facts about records used in the proofs *)

(** The URL [fetch_records] collects for a record: its [pdf_url] when
    that is not empty. *)
Definition url_of (r : dict) : list string :=
  match r !! "pdf_url" with
  | Some u => if String.eqb u "" then [] else [u]
  | None => []
  end.

Definition nonempty_urls (rs : list dict) : list string := concat (map url_of rs).

Definition has_pdf_url (rec : xml) : bool := bool_decide (is_Some (build_record rec !! "pdf_url")).

(** A record whose keys are all CSV field names. *)
Definition keys_ok (r : dict) : Prop := forall k, is_Some (r !! k) -> k ∈ csv_fieldnames.

(** ** Concrete library behaviours, used by the witnesses and counterexamples *)

Definition st0 : st := mkSt ∅ ∅ 0 [] [].

Definition url_a : string := "https://zoek.officielebekendmakingen.nl/kst-1.pdf".
Definition url_html : string := "https://zoek.officielebekendmakingen.nl/kst-2.pdf".
Definition url_404 : string := "https://zoek.officielebekendmakingen.nl/kst-3.pdf".

(** [url_a] serves a PDF whose cross-reference table is damaged: PyMuPDF
    cannot open it, pikepdf rewrites it into a document that opens; the
    word "budget" occurs twice on its only page.  [url_html] answers 200
    with an HTML error page, [url_404] answers 404. *)
Definition env_repair : Env := {|
  target_folder := "downloaded_pdfs";
  tmp_dir := "/tmp";
  tmp_names := ["tmpk3x9"];
  http_get := fun u =>
    if String.eqb u url_a then Some (200%Z, "%PDF-1.4 broken xref")
    else if String.eqb u url_html then Some (200%Z, "<html>Not found</html>")
    else if String.eqb u url_404 then Some (404%Z, "")
    else None;
  writable := fun _ => true;
  write_ok := fun _ _ => true;
  write_partial := fun _ _ => "";
  fz_open_ok := fun c => String.eqb c "%PDF-1.4 rebuilt";
  fz_npages := fun _ => 1;
  fz_page_ok := fun _ _ => true;
  fz_search := fun _ _ w => if String.eqb w "budget" then Some [7; 8] else Some [];
  fz_add_ok := fun _ _ _ => true;
  fz_style_ok := fun _ _ _ => true;
  fz_save_ok := fun _ => true;
  fz_render := fun c _ => c +:+ " annotated";
  pk_rewrite := fun c =>
    if String.eqb c "%PDF-1.4 broken xref" then Some "%PDF-1.4 rebuilt" else None
|}.

(** [url_a] serves a sound PDF with "budget" on its only page, but saving
    the highlighted copy fails (say, the disk is full). *)
Definition env_save_fails : Env := {|
  target_folder := "downloaded_pdfs";
  tmp_dir := "/tmp";
  tmp_names := ["tmpk3x9"];
  http_get := fun u => if String.eqb u url_a then Some (200%Z, "%PDF-1.7 sound") else None;
  writable := fun _ => true;
  write_ok := fun _ _ => true;
  write_partial := fun _ _ => "";
  fz_open_ok := fun _ => true;
  fz_npages := fun _ => 1;
  fz_page_ok := fun _ _ => true;
  fz_search := fun _ _ w => if String.eqb w "budget" then Some [7] else Some [];
  fz_add_ok := fun _ _ _ => true;
  fz_style_ok := fun _ _ _ => true;
  fz_save_ok := fun _ => false;
  fz_render := fun c _ => c;
  pk_rewrite := fun c => Some c
|}.

(** [url_a] serves a PDF that neither PyMuPDF nor pikepdf can read. *)
Definition env_unreadable : Env := {|
  target_folder := "downloaded_pdfs";
  tmp_dir := "/tmp";
  tmp_names := ["tmpk3x9"];
  http_get := fun u => if String.eqb u url_a then Some (200%Z, "%PDF garbage") else None;
  writable := fun _ => true;
  write_ok := fun _ _ => true;
  write_partial := fun _ _ => "";
  fz_open_ok := fun _ => false;
  fz_npages := fun _ => 0;
  fz_page_ok := fun _ _ => false;
  fz_search := fun _ _ _ => None;
  fz_add_ok := fun _ _ _ => false;
  fz_style_ok := fun _ _ _ => false;
  fz_save_ok := fun _ => false;
  fz_render := fun c _ => c;
  pk_rewrite := fun _ => None
|}.


(** Downloaded file of [url_a] in the target folder. *)
Definition path_a : string := "downloaded_pdfs/kst-1.pdf".

(** Only the damaged download of [env_repair] on disk. *)
Definition st_broken : st := mkSt {[ path_a := "%PDF-1.4 broken xref" ]} ∅ 0 [] [].

(** Only the sound download of [env_save_fails] on disk. *)
Definition st_sound : st := mkSt {[ path_a := "%PDF-1.7 sound" ]} ∅ 0 [] [].

(** Only the unreadable download of [env_unreadable] on disk. *)
Definition st_garbage : st := mkSt {[ path_a := "%PDF garbage" ]} ∅ 0 [] [].

(** Document 0 open on the repaired bytes of [env_repair]. *)
Definition st_open_doc : st :=
  mkSt ∅ {[ 0 := mkDoc "%PDF-1.4 rebuilt" [] false ]} 1 [] [].

(** A search for one term, fifty records per page, before any request. *)
Definition ps0 : pstate := mkPS (init_pd (TList ["doorstroomtoets"]) 50) [] ∅ [].

(** A record with an identifier and nothing else, and one without [recordData]. *)
Definition rec_k1 : xml :=
  Elem (qname ns_sru "record") None
       [Elem (qname ns_sru "recordData") None
             [Elem (qname ns_dcterms "identifier") (Some " kst-1 ") []]].
Definition rec_nodata : xml := Elem (qname ns_sru "record") None [].

(** A response page: its [numberOfRecords] and its records. *)
Definition sru_page (total : string) (recs : list xml) : xml :=
  Elem (qname ns_sru "searchRetrieveResponse") None
       [Elem (qname ns_sru "numberOfRecords") (Some total) [];
        Elem (qname ns_sru "records") None recs].

(** The server answers [startRecord=1] with the one record [rec_k1] of
    one, and [startRecord=2] with [rec_k1] and [rec_nodata] of three.
    [out.csv] and [full.csv] can be opened for writing, but the disk of
    [full.csv] is full after ten characters; [/readonly/out.csv] cannot be
    removed. *)
Definition parl_env : ParlEnv := {|
  sru_get := fun p =>
    if Z.eqb (p_startRecord p) 1 then Some (200%Z, "page1")
    else if Z.eqb (p_startRecord p) 2 then Some (200%Z, "page2")
    else None;
  xml_parse := fun c =>
    if String.eqb c "page1" then Some (sru_page "1" [rec_k1])
    else if String.eqb c "page2" then Some (sru_page "3" [rec_k1; rec_nodata])
    else None;
  csv_removable := fun p => negb (String.eqb p "/readonly/out.csv");
  csv_writable := fun p => String.eqb p "out.csv" || String.eqb p "full.csv";
  csv_write_ok := fun p _ => String.eqb p "out.csv";
  csv_partial := fun _ t => substring 0 10 t
|}.

(** [ps0] after [fetch_records] on [parl_env]: one request, one log record,
    [start_record] at 2. *)
Definition ps_k1 : pstate :=
  mkPS (set_start_record 2 (init_pd (TList ["doorstroomtoets"]) 50))
       [params (init_pd (TList ["doorstroomtoets"]) 50)] ∅ [LInfo].

(** [ps0] with one file on disk. *)
Definition ps_with (p c : string) : pstate := mkPS (obj ps0) [] {[ p := c ]} [].

(** The object about to ask for the second record. *)
Definition ps_second : pstate :=
  mkPS (set_param_start 2 (set_start_record 2 (init_pd (TList ["doorstroomtoets"]) 50))) [] ∅ [].

(** * Proofs *)

Section Proofs.
Variable E : Env.

(** What one fetch writes: the destination path and what it holds
    afterwards, when the response has status 200, starts with [%PDF] and
    the file can be opened for writing: the bytes, or what a failed write
    left. *)
Definition fetch_write (url : string) : option (string * string) :=
  let filepath := path_join (target_folder E) (get_filename_from_url url) in
  match http_get E url with
  | Some (status, content) =>
      if Z.eqb status 200 && String.eqb (substring 0 4 content) "%PDF" && writable E filepath
      then Some (filepath, if write_ok E filepath content then content
                           else write_partial E filepath content)
      else None
  | None => None
  end.

(** The value [_download_pdf] returns for [url]: the destination path
    when the bytes were written. *)
Definition fetch_outcome (url : string) : option string :=
  let filepath := path_join (target_folder E) (get_filename_from_url url) in
  match http_get E url with
  | Some (status, content) =>
      if Z.eqb status 200 && String.eqb (substring 0 4 content) "%PDF" && writable E filepath
         && write_ok E filepath content
      then Some filepath else None
  | None => None
  end.

Lemma fetch_outcome_write (url p : string) :
  fetch_outcome url = Some p -> exists c, fetch_write url = Some (p, c).
Proof.
  unfold fetch_outcome, fetch_write. destruct (http_get E url) as [[status content]|]; [|done].
  destruct (Z.eqb status 200), (String.eqb _ "%PDF"), (writable E _), (write_ok E _ _);
    cbn; try done.
  intros [= <-]. eauto.
Qed.

Definition apply_write (w : option (string * string)) (f : gmap string string) :=
  match w with
  | Some (p, c) => <[p := c]> f
  | None => f
  end.

Ltac unfold_monad :=
  unfold ret, bind, catch, attempt, raise, log_, add_log, add_event, set_fs, set_docs in *.

Lemma download_pdf_spec (url : string) (s : st) :
  fst (download_pdf E url s) = inr (fetch_outcome url) /\
  fs (snd (download_pdf E url s)) = apply_write (fetch_write url) (fs s) /\
  docs (snd (download_pdf E url s)) = docs s /\
  next_doc (snd (download_pdf E url s)) = next_doc s /\
  trace (snd (download_pdf E url s)) = (trace s ++ [Request url])%list.
Proof.
  unfold download_pdf, fetch_outcome, fetch_write, session_get, write_file.
  unfold_monad. destruct (http_get E url) as [[status content]|]; cbn; [|auto].
  destruct (Z.eqb status 200); cbn; [|auto].
  destruct (String.eqb (substring 0 4 content) "%PDF"); cbn; [|auto].
  destruct (writable E _); cbn; [|auto]. destruct (write_ok E _ _); cbn; auto.
Qed.

Lemma gather_spec (urls : list string) (s : st) :
  fst (gather E urls s) = inr (map fetch_outcome urls) /\
  fs (snd (gather E urls s)) = foldl (fun f u => apply_write (fetch_write u) f) (fs s) urls /\
  docs (snd (gather E urls s)) = docs s /\
  next_doc (snd (gather E urls s)) = next_doc s /\
  trace (snd (gather E urls s)) = (trace s ++ map Request urls)%list.
Proof.
  revert s. induction urls as [|u us IH]; intros s; [cbn; rewrite app_nil_r; auto|].
  cbn [gather]. unfold bind.
  destruct (download_pdf_spec u s) as (H1 & H2 & H3 & H4 & H5).
  destruct (download_pdf E u s) as [r s1]; cbn in *; subst r.
  destruct (IH s1) as (G1 & G2 & G3 & G4 & G5).
  destruct (gather E us s1) as [rs s2]; cbn in *; subst rs.
  unfold ret; cbn. rewrite ?G2, ?H2, ?G3, ?H3, ?G4, ?H4, ?G5, ?H5, <- ?app_assoc. auto.
Qed.

Lemma apply_write_keeps (w : option (string * string)) (f : gmap string string) (q : string) :
  is_Some (f !! q) -> is_Some (apply_write w f !! q).
Proof.
  destruct w as [[p c]|]; cbn; [|auto].
  intros H. apply lookup_insert_is_Some'. auto.
Qed.

Lemma foldl_writes_keeps (urls : list string) (f : gmap string string) (q : string) :
  is_Some (f !! q) ->
  is_Some (foldl (fun f u => apply_write (fetch_write u) f) f urls !! q).
Proof.
  revert f. induction urls as [|u us IH]; intros f H; cbn; auto.
  apply IH, apply_write_keeps, H.
Qed.

Lemma foldl_writes_written (urls : list string) (f : gmap string string) (p : string) :
  p ∈ somes (map fetch_outcome urls) ->
  is_Some (foldl (fun f u => apply_write (fetch_write u) f) f urls !! p).
Proof.
  revert f. induction urls as [|u us IH]; intros f H; cbn in *.
  - inversion H.
  - destruct (fetch_outcome u) as [p'|] eqn:Ho; cbn in *.
    + apply fetch_outcome_write in Ho as [c Hw]. rewrite Hw. cbn.
      apply elem_of_cons in H as [->|H].
      * apply foldl_writes_keeps. apply lookup_insert_is_Some'. auto.
      * apply IH, H.
    + destruct (fetch_write u) as [[p' c]|]; cbn; apply IH, H.
Qed.

(** ** Computations that preserve a relation between the state before and after *)

Section Preserve.
Variable R : st -> st -> Prop.
Context `{!PreOrder R}.

Definition preserves {A} (m : M A) : Prop := forall s, R s (snd (m s)).

Lemma preserves_ret {A} (a : A) : preserves (ret a).
Proof. intros s. cbn. reflexivity. Qed.

Lemma preserves_raise {A} (e : exn) : preserves (A:=A) (raise e).
Proof. intros s. cbn. reflexivity. Qed.

Lemma preserves_bind {A B} (m : M A) (k : A -> M B) :
  preserves m -> (forall a, preserves (k a)) -> preserves (bind m k).
Proof.
  intros Hm Hk s. unfold bind. specialize (Hm s).
  destruct (m s) as [[e|a] s1]; cbn in *; [done|].
  etrans; [exact Hm|apply Hk].
Qed.

Lemma preserves_catch {A} (m : M A) (h : exn -> M A) :
  preserves m -> (forall e, preserves (h e)) -> preserves (catch m h).
Proof.
  intros Hm Hh s. unfold catch. specialize (Hm s).
  destruct (m s) as [[e|a] s1]; cbn in *; [|done].
  etrans; [exact Hm|apply Hh].
Qed.

Lemma preserves_attempt {A} (m : M A) : preserves m -> preserves (attempt m).
Proof.
  intros Hm s. unfold attempt. specialize (Hm s).
  destruct (m s) as [[e|a] s1]; cbn in *; done.
Qed.

Lemma preserves_if {A} (b : bool) (m1 m2 : M A) :
  preserves m1 -> preserves m2 -> preserves (if b then m1 else m2).
Proof. destruct b; auto. Qed.

End Preserve.

Lemma preserves_weaken (R1 R2 : st -> st -> Prop) {A} (m : M A) :
  (forall s s', R1 s s' -> R2 s s') -> preserves R1 m -> preserves R2 m.
Proof. intros HR Hm s. apply HR, Hm. Qed.

(** The loops of [_highlight_words] only touch the document objects and
    the log: files, network trace and document numbering stay put. *)
Definition loop_frame (s s' : st) : Prop :=
  fs s' = fs s /\ trace s' = trace s /\ next_doc s' = next_doc s.

Instance loop_frame_preorder : PreOrder loop_frame.
Proof.
  split.
  - intros s. unfold loop_frame. auto.
  - intros s1 s2 s3 (A1 & A2 & A3) (B1 & B2 & B3). unfold loop_frame.
    rewrite B1, B2, B3. auto.
Qed.

(** A file present before is present after. *)
Definition keeps_file (q : string) (s s' : st) : Prop :=
  is_Some (fs s !! q) -> is_Some (fs s' !! q).

Instance keeps_file_preorder q : PreOrder (keeps_file q).
Proof. split; unfold keeps_file; intros ?; auto. Qed.

(** The network and repair trace is unchanged. *)
Definition same_trace (s s' : st) : Prop := trace s' = trace s.

Instance same_trace_preorder : PreOrder same_trace.
Proof. split; unfold same_trace; intros ?; [done|]. intros ? ? -> ->. done. Qed.

Create HintDb preserve.
#[local] Hint Resolve preserves_ret preserves_raise preserves_bind preserves_catch
  preserves_attempt preserves_if : preserve.

Ltac prim_frame :=
  intros ?s; unfold doc_truthy, load_page, doc_len, doc_close, search_for,
    add_highlight, get_doc, ret, bind, catch, attempt, raise, log_, add_log,
    add_event, set_fs, set_docs in *;
  cbn; repeat (case_match; simplify_eq/=); try reflexivity.

Lemma log_frame l : preserves loop_frame (log_ l).
Proof. prim_frame; split; auto. Qed.
Lemma get_doc_frame d : preserves loop_frame (get_doc d).
Proof. prim_frame; reflexivity. Qed.
Lemma load_page_frame d i : preserves loop_frame (load_page E d i).
Proof. prim_frame; reflexivity. Qed.
Lemma doc_len_frame d : preserves loop_frame (doc_len E d).
Proof. prim_frame; reflexivity. Qed.
Lemma doc_truthy_frame d : preserves loop_frame (doc_truthy E d).
Proof. prim_frame; reflexivity. Qed.
Lemma doc_close_frame d : preserves loop_frame (doc_close d).
Proof. prim_frame; split; auto. Qed.
Lemma search_for_frame d i w : preserves loop_frame (search_for E d i w).
Proof. prim_frame; reflexivity. Qed.
Lemma add_highlight_frame d i r : preserves loop_frame (add_highlight E d i r).
Proof. prim_frame; split; auto. Qed.

#[local] Hint Resolve log_frame get_doc_frame load_page_frame doc_len_frame
  doc_truthy_frame doc_close_frame search_for_frame add_highlight_frame : preserve.

Lemma insts_loop_frame d i rs acc : preserves loop_frame (insts_loop E d i rs acc).
Proof.
  revert acc. induction rs as [|r rs IH]; intros acc; cbn; eauto 10 with preserve typeclass_instances.
Qed.
#[local] Hint Resolve insts_loop_frame : preserve.

Lemma words_loop_frame d i ws acc : preserves loop_frame (words_loop E d i ws acc).
Proof.
  revert acc. induction ws as [|w ws IH]; intros acc; cbn; eauto 10 with preserve typeclass_instances.
Qed.
#[local] Hint Resolve words_loop_frame : preserve.

Lemma pages_loop_frame d ws ps acc : preserves loop_frame (pages_loop E d ws ps acc).
Proof.
  revert acc. induction ps as [|p ps IH]; intros acc; cbn; eauto 10 with preserve typeclass_instances.
Qed.
#[local] Hint Resolve pages_loop_frame : preserve.

Lemma page_loop_frame d ws : preserves loop_frame (page_loop E d ws).
Proof. unfold page_loop. eauto 10 with preserve typeclass_instances. Qed.

(** ** Files present before [_highlight_words] are present after *)

Lemma frame_keeps_file q s s' : loop_frame s s' -> keeps_file q s s'.
Proof. unfold keeps_file. intros (-> & _ & _). auto. Qed.

Lemma loop_frame_keeps {A} q (m : M A) : preserves loop_frame m -> preserves (keeps_file q) m.
Proof. apply preserves_weaken, frame_keeps_file. Qed.

Lemma first_free_fresh (ns : list string) (f : gmap string string) (p : string) :
  first_free E ns f = Some p -> f !! p = None.
Proof.
  induction ns as [|n ns IH]; cbn; [done|].
  case_bool_decide as Hp; [apply IH|].
  intros [= <-]. apply eq_None_not_Some, Hp.
Qed.

Ltac keep_prim :=
  intros ?s ?Hq; unfold fitz_open, pike_repair, named_tmp, doc_save, read_file,
    path_exists, get_doc, ret, bind, catch, attempt, raise, log_, add_log,
    add_event, set_fs, set_docs in *;
  cbn; repeat (case_match; simplify_eq/=); try done;
  try (apply lookup_insert_is_Some'; auto).

Lemma fitz_open_keeps q p : preserves (keeps_file q) (fitz_open E p).
Proof. keep_prim. Qed.
Lemma doc_save_keeps q d p : preserves (keeps_file q) (doc_save E d p).
Proof. keep_prim. Qed.
Lemma unlink_keeps q p : p <> q -> preserves (keeps_file q) (unlink p).
Proof.
  intros Hne s Hq. unfold unlink, set_fs. case_match; cbn; [|done].
  apply lookup_delete_is_Some. auto.
Qed.

Lemma close_if_truthy_frame db : preserves loop_frame (close_if_truthy E db).
Proof. destruct db; cbn; eauto 10 with preserve typeclass_instances. Qed.

Ltac pres :=
  repeat first
    [ solve [eauto 10 with preserve typeclass_instances]
    | apply preserves_bind | apply preserves_catch | apply preserves_attempt
    | apply preserves_if | progress intros | progress (case_match; subst) ].

#[local] Hint Resolve fitz_open_keeps doc_save_keeps close_if_truthy_frame page_loop_frame : preserve.
#[local] Hint Extern 2 (preserves (keeps_file _) _) => apply loop_frame_keeps : preserve.

(** [_repair_pdf] deletes only its own temporary file, which did not exist
    when it was called: a file present before is present after, and the
    returned temporary path is not such a file. *)
Lemma repair_pdf_keeps q p s :
  is_Some (fs s !! q) ->
  is_Some (fs (snd (repair_pdf E p s)) !! q) /\
  (forall a, fst (repair_pdf E p s) = inr a -> a <> Some q).
Proof.
  intros Hq. unfold repair_pdf, named_tmp, pike_repair, read_file, path_exists, unlink,
    ret, bind, attempt, raise, log_, add_log, add_event, set_fs in *.
  cbn. destruct (first_free E (tmp_names E) (fs s)) as [tp|] eqn:Hf; cbn; [|split; [done|congruence]].
  apply first_free_fresh in Hf.
  assert (tp <> q) by (intros ->; rewrite Hf in Hq; by destruct Hq).
  repeat (case_match; simplify_eq; cbn -[insert delete lookup] in * ).
  all: split; [|intros a [= <-]; congruence].
  all: repeat first [ apply lookup_delete_is_Some; split; [done|]
                    | apply lookup_insert_is_Some'; right ]; done.
Qed.

Lemma keeps_bind_dep {A B} q (m : M A) (k : A -> M B) (P : A -> Prop) :
  (forall s, is_Some (fs s !! q) ->
     is_Some (fs (snd (m s)) !! q) /\ (forall a, fst (m s) = inr a -> P a)) ->
  (forall a, P a -> preserves (keeps_file q) (k a)) ->
  preserves (keeps_file q) (bind m k).
Proof.
  intros Hm Hk s Hq. unfold bind. destruct (Hm s Hq) as [Hq' Ha].
  destruct (m s) as [[e|a] s1]; cbn in *; [done|].
  apply (Hk a (Ha a eq_refl)), Hq'.
Qed.

Lemma repair_branch_keeps q db p : preserves (keeps_file q) (repair_branch E db p).
Proof.
  unfold repair_branch.
  apply preserves_bind; [typeclasses eauto|eauto with preserve typeclass_instances|intros _].
  apply preserves_bind; [typeclasses eauto|eauto with preserve typeclass_instances|intros _].
  apply (keeps_bind_dep q _ _ (fun a => a <> Some q)); [apply repair_pdf_keeps|].
  intros [rp|] Hrp; [|eauto with preserve typeclass_instances].
  assert (rp <> q) by congruence.
  unfold revalidation_failed.
  assert (preserves (keeps_file q) (unlink rp)) by (apply unlink_keeps; done).
  pres.
Qed.
#[local] Hint Resolve repair_branch_keeps : preserve.

Lemma highlight_words_keeps q p ws : preserves (keeps_file q) (highlight_words E p ws).
Proof.
  unfold highlight_words, open_or_repair, annotate_and_save. pres.
Qed.

(** ** [download_pdfs] returns the downloaded paths *)

Lemma highlight_words_total p ws s : exists b, fst (highlight_words E p ws s) = inr b.
Proof.
  unfold highlight_words, catch.
  destruct (bind (open_or_repair E p) _ s) as [[e|b] s1]; cbn; eauto.
Qed.

Lemma highlight_all_total files ws acc s :
  exists r, fst (highlight_all E files ws acc s) = inr r.
Proof.
  revert acc s. induction files as [|f fs' IH]; intros acc s; cbn; [eauto|].
  unfold bind at 1. destruct (highlight_words_total f ws s) as [b Hb].
  destruct (highlight_words E f ws s) as [r s1]; cbn in Hb; subst r.
  destruct b; [apply IH|]. unfold bind, log_; cbn. apply IH.
Qed.

Lemma highlight_all_keeps q files ws acc : preserves (keeps_file q) (highlight_all E files ws acc).
Proof.
  revert acc. induction files as [|f fs' IH]; intros acc; cbn; [pres|].
  apply preserves_bind; [typeclasses eauto|apply highlight_words_keeps|].
  intros []; pres.
Qed.

Lemma download_pdfs_result urls hw s :
  urls <> [] ->
  fst (download_pdfs E urls hw s) = inr (somes (map fetch_outcome urls)) /\
  (forall p, p ∈ somes (map fetch_outcome urls) ->
     is_Some (fs (snd (download_pdfs E urls hw s)) !! p)).
Proof.
  intros Hne.
  enough (Hrun : exists s3, download_pdfs E urls hw s = (inr (somes (map fetch_outcome urls)), s3) /\
                 forall p, p ∈ somes (map fetch_outcome urls) -> is_Some (fs s3 !! p)).
  { destruct Hrun as (s3 & -> & H). cbn. auto. }
  destruct urls as [|u us]; [done|]. remember (u :: us) as urls eqn:Hu.
  unfold download_pdfs. rewrite Hu. rewrite <- Hu.
  unfold bind at 1, log_ at 1.
  set (s1 := add_log LInfo s).
  unfold download_all. unfold bind at 1 2.
  destruct (gather_spec urls s1) as (G1 & G2 & _).
  destruct (gather E urls s1) as [rs s2]; cbn in G1, G2; subst rs. cbn -[highlight_all].
  assert (Hw : forall p, p ∈ somes (map fetch_outcome urls) -> is_Some (fs s2 !! p)).
  { intros p Hp. rewrite G2. apply foldl_writes_written, Hp. }
  unfold bind at 1.
  destruct (words_truthy hw && negb (bool_decide (somes (map fetch_outcome urls) = []))).
  - unfold bind at 1.
    destruct (highlight_all_total (somes (map fetch_outcome urls)) (words_list hw) [] s2) as [r Hr].
    pose proof (fun q => highlight_all_keeps q (somes (map fetch_outcome urls)) (words_list hw) [] s2) as Hk.
    destruct (highlight_all E _ _ [] s2) as [r' s3]; cbn in Hr, Hk; subst r'.
    cbn. eexists; split; [done|]. intros p Hp. apply Hk, Hw, Hp.
  - cbn. eexists; split; [done|]. apply Hw.
Qed.

Lemma somes_map_length {A B} (f : A -> option B) (l : list A) :
  length (somes (map f l)) <= length l /\
  (length (somes (map f l)) = length l <-> Forall (fun x => is_Some (f x)) l).
Proof.
  induction l as [|x l [IH1 IH2]]; cbn; [split; [lia|split; auto]|].
  destruct (f x) eqn:Hx; cbn.
  - split; [lia|]. rewrite Forall_cons. split.
    + intros [= H]. split; [rewrite Hx; eauto|]. apply IH2, H.
    + intros [_ H]. f_equal. apply IH2, H.
  - split; [lia|]. rewrite Forall_cons. split; [lia|].
    intros [[? H] _]. congruence.
Qed.

(** ** Trace of [_highlight_words]: the only event is the repair marker *)

Lemma same_trace_of_frame {A} (m : M A) : preserves loop_frame m -> preserves same_trace m.
Proof. apply preserves_weaken. intros ? ? (_ & H & _). exact H. Qed.

Ltac trace_prim :=
  intros ?s; unfold fitz_open, pike_repair, named_tmp, doc_save, read_file, unlink,
    path_exists, get_doc, ret, bind, catch, attempt, raise, log_, add_log,
    add_event, set_fs, set_docs, same_trace in *;
  cbn; repeat (case_match; simplify_eq; cbn -[insert delete lookup] in * ); done.

Lemma fitz_open_trace p : preserves same_trace (fitz_open E p).
Proof. trace_prim. Qed.
Lemma doc_save_trace d p : preserves same_trace (doc_save E d p).
Proof. trace_prim. Qed.
Lemma unlink_trace p : preserves same_trace (unlink p).
Proof. trace_prim. Qed.

#[local] Hint Resolve fitz_open_trace doc_save_trace unlink_trace : preserve.
#[local] Hint Extern 2 (preserves same_trace _) => apply same_trace_of_frame : preserve.

Lemma annotate_and_save_trace d p ws : preserves same_trace (annotate_and_save E d p ws).
Proof. unfold annotate_and_save. pres. Qed.

Lemma repair_pdf_trace p s :
  trace (snd (repair_pdf E p s)) = (trace s ++ [RepairCall p])%list.
Proof.
  unfold repair_pdf, named_tmp, pike_repair, read_file, path_exists, unlink,
    ret, bind, attempt, raise, log_, add_log, add_event, set_fs in *.
  cbn. repeat (case_match; simplify_eq; cbn -[insert delete lookup] in * ); done.
Qed.

Lemma bind_trace {A B} (m : M A) (k : A -> M B) s t :
  trace (snd (m s)) = (trace s ++ t)%list ->
  (forall a, preserves same_trace (k a)) ->
  trace (snd (bind m k s)) = (trace s ++ t)%list.
Proof.
  intros Hm Hk. unfold bind. destruct (m s) as [[e|a] s1]; cbn in *; [done|].
  rewrite <- Hm. apply Hk.
Qed.

(** The bytes pass the validation of lines 148-150: [fitz.open] accepts
    them and page 0 loads. *)
Definition valid_bytes (c : string) : bool :=
  fz_open_ok E c && Nat.ltb 0 (fz_npages E c) && fz_page_ok E c 0.

Lemma repair_branch_trace db p s :
  (forall d, db = Some d -> exists r, docs s !! d = Some r /\ d_closed r = false) ->
  trace (snd (repair_branch E db p s)) = (trace s ++ [RepairCall p])%list.
Proof.
  intros Hdb. unfold repair_branch.
  unfold bind at 1 2, log_ at 1. cbn -[repair_pdf].
  assert (Hc : exists s2, close_if_truthy E db (add_log LWarning s) = (inr tt, s2) /\
                        trace s2 = trace s).
  { destruct db as [d|]; cbn; [|eauto].
    destruct (Hdb d eq_refl) as [r [Hr Hcl]].
    unfold doc_truthy, doc_len, get_doc, bind, ret, add_log; cbn. rewrite Hr, Hcl. cbn.
    case_match; cbn; [|eauto]. unfold doc_close; cbn. rewrite Hr. cbn. eauto. }
  destruct Hc as (s2 & -> & Hs2). rewrite <- Hs2.
  apply bind_trace; [apply repair_pdf_trace|].
  intros [rp|]; unfold revalidation_failed; pres.
Qed.

Lemma open_or_repair_trace p c s :
  fs s !! p = Some c ->
  trace (snd (open_or_repair E p s)) =
    (trace s ++ (if valid_bytes c then [] else [RepairCall p]))%list.
Proof.
  intros Hp. unfold open_or_repair, valid_bytes.
  unfold bind at 1, attempt at 1, fitz_open, read_file, bind at 1, raise. rewrite Hp. cbn -[repair_branch].
  destruct (fz_open_ok E c) eqn:Ho; cbn -[repair_branch].
  - unfold bind at 1, attempt at 1, load_page, get_doc, bind at 1. cbn -[repair_branch].
    rewrite lookup_insert_eq. cbn -[repair_branch].
    destruct (fz_npages E c) as [|n]; [|destruct (fz_page_ok E c 0)]; cbn -[repair_branch].
    all: try (rewrite app_nil_r; done).
    all: rewrite repair_branch_trace; [cbn; done|]; intros d [= <-]; cbn;
         rewrite lookup_insert_eq; eauto.
  - rewrite repair_branch_trace; [cbn; done|]. done.
Qed.

(** ** A repaired document goes on only if its bytes validate *)

Lemma bind_inr {A B} (m : M A) (k : A -> M B) s v :
  fst (bind m k s) = inr v ->
  exists a s1, m s = (inr a, s1) /\ fst (k a s1) = inr v.
Proof.
  unfold bind. destruct (m s) as [[e|a] s1]; cbn; [congruence|]. eauto.
Qed.

Lemma attempt_inr {A} (m : M A) s r s1 :
  attempt m s = (inr r, s1) ->
  match r with inl _ => exists e, m s = (inl e, s1) | inr a => m s = (inr a, s1) end.
Proof.
  unfold attempt. destruct (m s) as [[e|a] s2]; intros [= <- <-]; eauto.
Qed.

Lemma revalidation_failed_none db rp s x :
  fst (revalidation_failed E db rp s) <> inr (Some x).
Proof.
  unfold revalidation_failed. intros H.
  apply bind_inr in H as (? & ? & _ & H).
  apply bind_inr in H as (? & ? & _ & H).
  apply bind_inr in H as (? & ? & _ & H).
  cbn in H. congruence.
Qed.

Lemma repair_pdf_result p s c rp :
  fs s !! p = Some c ->
  fst (repair_pdf E p s) = inr (Some rp) ->
  exists c', pk_rewrite E c = Some c' /\ fs (snd (repair_pdf E p s)) !! rp = Some c'.
Proof.
  intros Hp. unfold repair_pdf, named_tmp, pike_repair, read_file, path_exists, unlink,
    ret, bind, attempt, raise, log_, add_log, add_event, set_fs in *.
  cbn. destruct (first_free E (tmp_names E) (fs s)) as [tp|] eqn:Hf; cbn; [|congruence].
  apply first_free_fresh in Hf.
  assert (tp <> p) by (intros ->; congruence).
  rewrite lookup_insert_ne by done. rewrite Hp. cbn.
  destruct (pk_rewrite E c) as [c'|]; cbn.
  - intros [= ->]. exists c'. split; [done|]. apply lookup_insert_eq.
  - repeat (case_match; simplify_eq; cbn -[insert delete lookup] in * ); congruence.
Qed.

Lemma close_if_truthy_fs db s : fs (snd (close_if_truthy E db s)) = fs s.
Proof. apply (close_if_truthy_frame db s). Qed.

Lemma repair_branch_result db p s c x :
  fs s !! p = Some c ->
  fst (repair_branch E db p s) = inr (Some x) ->
  exists c', pk_rewrite E c = Some c' /\ valid_bytes c' = true.
Proof.
  intros Hp H. unfold repair_branch in H.
  apply bind_inr in H as (? & s1 & Hl & H). unfold log_ in Hl. inversion Hl; subst s1.
  apply bind_inr in H as (? & s2 & Hc & H).
  pose proof (close_if_truthy_fs db (add_log LWarning s)) as Hfs. rewrite Hc in Hfs. cbn in Hfs.
  apply bind_inr in H as (rp & s3 & Hr & H).
  destruct rp as [rp|]; [|cbn in H; congruence].
  destruct (repair_pdf_result p s2 c rp) as (c' & Hc' & Hrp);
    [rewrite Hfs; exact Hp|rewrite Hr; done|].
  rewrite Hr in Hrp. cbn in Hrp.
  exists c'. split; [done|].
  apply bind_inr in H as (o & s4 & Ho & H). apply attempt_inr in Ho.
  destruct o as [e|d2]; [by apply revalidation_failed_none in H|].
  unfold fitz_open, read_file, bind, raise in Ho. rewrite Hrp in Ho.
  destruct (fz_open_ok E c') eqn:Hok; [|congruence].
  injection Ho as <- <-.
  apply bind_inr in H as (v & s5 & Hv & H). apply attempt_inr in Hv.
  destruct v as [e|[]]; [by apply revalidation_failed_none in H|].
  unfold load_page, get_doc, bind, raise, ret in Hv. cbn in Hv. rewrite lookup_insert_eq in Hv. cbn in Hv.
  unfold valid_bytes. rewrite Hok.
  destruct (fz_npages E c'); cbn in *; [congruence|].
  destruct (fz_page_ok E c' 0); cbn in *; congruence.
Qed.

Lemma open_or_repair_result p s c x :
  fs s !! p = Some c ->
  valid_bytes c = false ->
  fst (open_or_repair E p s) = inr (Some x) ->
  exists c', pk_rewrite E c = Some c' /\ valid_bytes c' = true.
Proof.
  intros Hp Hinv H. unfold open_or_repair in H.
  apply bind_inr in H as (o & s1 & Ho & H). apply attempt_inr in Ho.
  destruct o as [e|d].
  - destruct Ho as [e' Ho].
    unfold fitz_open, read_file, bind, raise in Ho. rewrite Hp in Ho.
    destruct (fz_open_ok E c); [congruence|]. injection Ho as _ <-.
    eapply repair_branch_result; [exact Hp|exact H].
  - unfold fitz_open, read_file, bind, raise in Ho. rewrite Hp in Ho.
    destruct (fz_open_ok E c) eqn:Hok; [|congruence].
    injection Ho as <- <-.
    apply bind_inr in H as (v & s2 & Hv & H). apply attempt_inr in Hv.
    destruct v as [e|[]].
    + destruct Hv as [e' Hv].
      unfold load_page, get_doc, bind, raise, ret in Hv. cbn in Hv. rewrite lookup_insert_eq in Hv. cbn in Hv.
      assert (s2 = mkSt (fs s) (<[next_doc s := mkDoc c [] false]> (docs s)) (S (next_doc s))
                        (trace s) (log s)) as ->.
      { destruct (fz_npages E c); [|destruct (fz_page_ok E c 0)]; cbn in Hv; congruence. }
      eapply repair_branch_result; [|exact H]. cbn. exact Hp.
    + unfold load_page, get_doc, bind, raise, ret in Hv. cbn in Hv. rewrite lookup_insert_eq in Hv. cbn in Hv.
      unfold valid_bytes in Hinv. rewrite Hok in Hinv.
      destruct (fz_npages E c); cbn in *; [congruence|].
      destruct (fz_page_ok E c 0); cbn in *; congruence.
Qed.

Lemma catch_trace {A} (m : M A) (h : exn -> M A) s t :
  trace (snd (m s)) = (trace s ++ t)%list ->
  (forall e, preserves same_trace (h e)) ->
  trace (snd (catch m h s)) = (trace s ++ t)%list.
Proof.
  intros Hm Hh. unfold catch. destruct (m s) as [[e|a] s1] eqn:Hs; cbn in *; [|done].
  rewrite <- Hm. apply Hh.
Qed.

(** ** The annotation loops never abort *)

(** Instance [r] of page [i] is highlighted and counted: the three calls
    of lines 189-191 succeed. *)
Definition inst_ok (c : string) (i r : nat) : bool :=
  fz_add_ok E c i r && fz_style_ok E c i r.

(** Highlights counted for word [w] on page [i], and whether a failure
    was recorded there. *)
Definition word_count (c : string) (i : nat) (w : string) : nat :=
  match fz_search E c i w with
  | Some rs => length (List.filter (inst_ok c i) rs)
  | None => 0
  end.
Definition word_failed (c : string) (i : nat) (w : string) : bool :=
  match fz_search E c i w with
  | Some rs => negb (forallb (inst_ok c i) rs)
  | None => true
  end.

Definition page_count (c : string) (ws : list string) (i : nat) : nat :=
  if fz_page_ok E c i then sum_list (map (word_count c i) ws) else 0.
Definition page_failed (c : string) (ws : list string) (i : nat) : bool :=
  if fz_page_ok E c i then existsb (word_failed c i) ws else true.

(** Over the whole document: every page of [range(len(doc))]. *)
Definition total_count (c : string) (ws : list string) : nat :=
  sum_list (map (page_count c ws) (seq 0 (fz_npages E c))).
Definition any_failed (c : string) (ws : list string) : bool :=
  existsb (page_failed c ws) (seq 0 (fz_npages E c)).

Definition doc_is_open (d : nat) (c : string) (s : st) : Prop :=
  exists a, docs s !! d = Some (mkDoc c a false).

Lemma insts_loop_spec d c i rs acc s :
  doc_is_open d c s ->
  fst (insts_loop E d i rs acc s) =
    inr (fst acc + length (List.filter (inst_ok c i) rs),
         snd acc || negb (forallb (inst_ok c i) rs)) /\
  doc_is_open d c (snd (insts_loop E d i rs acc s)).
Proof.
  revert acc s. induction rs as [|r rs IH]; intros [n e] s [a Ha]; cbn.
  { rewrite Nat.add_0_r, orb_false_r. unfold doc_is_open. eauto. }
  unfold bind at 1, catch, add_highlight, get_doc, bind, ret, raise, log_, add_log, set_docs.
  cbn -[insert lookup insts_loop]. rewrite Ha. cbn -[insert lookup insts_loop].
  unfold inst_ok in *.
  destruct (fz_add_ok E c i r); cbn -[insert lookup insts_loop].
  - destruct (fz_style_ok E c i r); cbn -[insert lookup insts_loop].
    + edestruct IH as [-> Ho]; [eexists; cbn; apply lookup_insert_eq|].
      split; [|exact Ho]. cbn. f_equal. f_equal. lia.
    + edestruct IH as [-> Ho]; [eexists; cbn; apply lookup_insert_eq|].
      split; [|exact Ho]. cbn. rewrite orb_true_r. done.
  - edestruct IH as [-> Ho]; [eexists; cbn; exact Ha|].
    split; [|exact Ho]. cbn. rewrite orb_true_r. done.
Qed.

Lemma words_loop_spec d c i ws acc s :
  doc_is_open d c s ->
  fst (words_loop E d i ws acc s) =
    inr (fst acc + sum_list (map (word_count c i) ws),
         snd acc || existsb (word_failed c i) ws) /\
  doc_is_open d c (snd (words_loop E d i ws acc s)).
Proof.
  revert acc s. induction ws as [|w ws IH]; intros [n e] s Ho; cbn.
  { rewrite Nat.add_0_r, orb_false_r. eauto. }
  destruct Ho as [a Ha].
  unfold catch, search_for, get_doc, bind, ret, raise, log_, add_log.
  cbn -[insert lookup words_loop insts_loop]. rewrite Ha. cbn -[insert lookup words_loop insts_loop].
  unfold word_count at 1, word_failed at 1.
  destruct (fz_search E c i w) as [rs|]; cbn -[insert lookup words_loop insts_loop].
  - destruct (insts_loop_spec d c i rs (n, e) s) as [Hr Ho']; [eexists; exact Ha|].
    destruct (insts_loop E d i rs (n, e) s) as [r s1]; cbn in Hr, Ho'; subst r.
    edestruct IH as [-> Ho'']; [exact Ho'|]. split; [|exact Ho''].
    cbn. f_equal. f_equal; [lia|]. by rewrite orb_assoc.
  - edestruct IH as [-> Ho'']; [eexists; cbn; exact Ha|]. split; [|exact Ho''].
    cbn. rewrite orb_true_r. done.
Qed.

Lemma pages_loop_spec d c ws ps acc s :
  doc_is_open d c s ->
  Forall (fun i => i < fz_npages E c) ps ->
  fst (pages_loop E d ws ps acc s) =
    inr (fst acc + sum_list (map (page_count c ws) ps),
         snd acc || existsb (page_failed c ws) ps) /\
  doc_is_open d c (snd (pages_loop E d ws ps acc s)).
Proof.
  revert acc s. induction ps as [|i ps IH]; intros [n e] s Ho Hps; cbn.
  { rewrite Nat.add_0_r, orb_false_r. eauto. }
  apply Forall_cons in Hps as [Hi Hps].
  destruct Ho as [a Ha].
  unfold catch, load_page, get_doc, bind, ret, raise, log_, add_log.
  cbn -[insert lookup words_loop pages_loop Nat.ltb]. rewrite Ha. cbn -[insert lookup words_loop pages_loop Nat.ltb].
  unfold page_count at 1, page_failed at 1.
  assert (Hlt : Nat.ltb i (fz_npages E c) = true) by (apply Nat.ltb_lt; lia).
  rewrite Hlt. cbn -[insert lookup words_loop pages_loop Nat.ltb].
  destruct (fz_page_ok E c i); cbn -[insert lookup words_loop pages_loop Nat.ltb].
  - destruct (words_loop_spec d c i ws (n, e) s) as [Hr Ho']; [eexists; exact Ha|].
    destruct (words_loop E d i ws (n, e) s) as [r s1]; cbn in Hr, Ho'; subst r.
    edestruct IH as [-> Ho'']; [exact Ho'|exact Hps|]. split; [|exact Ho''].
    cbn. f_equal. f_equal; [lia|]. by rewrite orb_assoc.
  - edestruct IH as [-> Ho'']; [eexists; cbn; exact Ha|exact Hps|]. split; [|exact Ho''].
    cbn. rewrite orb_true_r. done.
Qed.

(** * Further properties of [download_pdf.py] *)

(** ** Paths and file names *)

Fixpoint has_slash (s : string) : bool :=
  match s with
  | EmptyString => false
  | String c s' => Ascii.eqb c "/"%char || has_slash s'
  end.

Lemma str_app_nil (b : string) : "" +:+ b = b.
Proof. reflexivity. Qed.

Lemma str_app_cons (x : ascii) (a b : string) : String x a +:+ b = String x (a +:+ b).
Proof. reflexivity. Qed.

Lemma str_app_assoc (a b c : string) : (a +:+ b) +:+ c = a +:+ (b +:+ c).
Proof. induction a as [|x a IH]; rewrite ?str_app_cons, ?str_app_nil; congruence. Qed.

Lemma has_slash_app (a b : string) : has_slash (a +:+ b) = has_slash a || has_slash b.
Proof. induction a as [|x a IH]; rewrite ?str_app_cons, ?str_app_nil; cbn; [done|]. by rewrite IH, orb_assoc. Qed.

Lemma split_slash_nonempty (s : string) : split_slash s <> [].
Proof.
  induction s as [|c s IH]; cbn; [done|].
  destruct (split_slash s); [done|]. by destruct (Ascii.eqb c "/").
Qed.

Lemma split_slash_no_slash (s : string) : has_slash s = false -> split_slash s = [s].
Proof.
  induction s as [|c s IH]; cbn; [done|].
  intros [Hc Hs]%orb_false_iff. rewrite IH by done. by rewrite Hc.
Qed.

Lemma split_slash_app (a b : string) :
  split_slash (a +:+ String "/" b) = (split_slash a ++ split_slash b)%list.
Proof.
  induction a as [|c a IH]; rewrite ?str_app_cons, ?str_app_nil; cbn.
  - destruct (split_slash b) eqn:Eb; [by apply split_slash_nonempty in Eb|]. done.
  - rewrite IH. destruct (split_slash a) eqn:Ea; [by apply split_slash_nonempty in Ea|].
    cbn. by destruct (Ascii.eqb c "/").
Qed.

Lemma split_slash_segments (s : string) : Forall (fun seg => has_slash seg = false) (split_slash s).
Proof.
  induction s as [|c s IH]; cbn; [by constructor|].
  destruct (split_slash s) as [|seg rest] eqn:Es; [by apply split_slash_nonempty in Es|].
  apply Forall_cons in IH as [Hseg Hrest].
  destruct (Ascii.eqb c "/") eqn:Hc; repeat constructor; try done.
  cbn. by rewrite Hc, Hseg.
Qed.

Lemma last_Forall {A} (P : A -> Prop) (l : list A) (d : A) :
  P d -> Forall P l -> P (List.last l d).
Proof.
  intros Hd Hl. induction Hl as [|x l Hx Hl IH]; cbn; [done|].
  destruct l; [done|]. apply IH.
Qed.

Lemma last_segment_no_slash (s : string) : has_slash (last_segment s) = false.
Proof.
  unfold last_segment. apply (last_Forall (fun seg => has_slash seg = false));
    [done|apply split_slash_segments].
Qed.

Lemma last_segment_join (dir name : string) :
  has_slash name = false -> last_segment (path_join dir name) = name.
Proof.
  intros Hn. unfold last_segment, path_join. change ("/" +:+ name) with (String "/" name).
  rewrite split_slash_app, (split_slash_no_slash name Hn). apply List.last_last.
Qed.

Lemma join_slash_cons2 (x y : string) (l : list string) :
  join_slash (x :: y :: l) = x +:+ "/" +:+ join_slash (y :: l).
Proof. reflexivity. Qed.

Lemma join_split_slash (s : string) : join_slash (split_slash s) = s.
Proof.
  induction s as [|c s IH]; [done|].
  change (split_slash (String c s)) with
    (match split_slash s with
     | seg :: rest => if Ascii.eqb c "/"%char then "" :: seg :: rest else String c seg :: rest
     | [] => [String c ""]
     end).
  destruct (split_slash s) as [|seg rest] eqn:Es; [by apply split_slash_nonempty in Es|].
  destruct (Ascii.eqb c "/") eqn:Hc.
  - apply Ascii.eqb_eq in Hc as ->. rewrite join_slash_cons2, IH. reflexivity.
  - destruct rest as [|r rest].
    + cbn in IH |- *. by rewrite IH.
    + rewrite join_slash_cons2 in IH |- *. rewrite <- IH. reflexivity.
Qed.

Lemma path_parent_join (dir name : string) :
  has_slash name = false -> path_parent (path_join dir name) = dir.
Proof.
  intros Hn. unfold path_parent, path_join. change ("/" +:+ name) with (String "/" name).
  rewrite split_slash_app, (split_slash_no_slash name Hn), removelast_last.
  apply join_split_slash.
Qed.

Lemma prefix_app (a b : string) : String.prefix a (a +:+ b) = true.
Proof.
  induction a as [|x a IH]; [by destruct b|]. rewrite str_app_cons. cbn.
  destruct (ascii_dec x x) as [_|n]; [apply IH|by destruct n].
Qed.

(** The name of the highlighted copy of [p] starts with [highlighted_]. *)
Lemma highlighted_name (p : string) :
  path_name (path_join (path_parent p) ("highlighted_" +:+ path_name p)) =
    "highlighted_" +:+ path_name p.
Proof.
  apply last_segment_join. rewrite has_slash_app. apply last_segment_no_slash.
Qed.

(** ** [_highlight_words] on a file that opens *)

Lemma first_free_name (ns : list string) (f : gmap string string) (p : string) :
  first_free E ns f = Some p -> exists n, n ∈ ns /\ p = path_join (tmp_dir E) (n +:+ ".pdf").
Proof.
  induction ns as [|n ns IH]; cbn; [done|].
  case_bool_decide as Hb.
  - intros Hf. destruct (IH Hf) as (n' & Hn' & ->). exists n'.
    split; [apply elem_of_cons; by right|done].
  - intros [= <-]. exists n. split; [apply elem_of_cons; by left|done].
Qed.

Lemma open_or_repair_valid (p c : string) (s : st) :
  fs s !! p = Some c -> valid_bytes c = true ->
  open_or_repair E p s =
    (inr (Some (next_doc s, p)),
     mkSt (fs s) (<[next_doc s := mkDoc c [] false]> (docs s)) (S (next_doc s)) (trace s) (log s)).
Proof.
  intros Hp Hv. unfold valid_bytes in Hv.
  apply andb_true_iff in Hv as [Hv Hpage]. apply andb_true_iff in Hv as [Hok Hn].
  unfold open_or_repair, fitz_open, read_file, attempt, bind, raise, ret.
  rewrite Hp, Hok. cbn -[insert lookup Nat.ltb].
  unfold load_page, get_doc, bind, ret, raise. cbn -[insert lookup Nat.ltb].
  rewrite lookup_insert_eq. cbn -[insert lookup Nat.ltb]. rewrite Hn, Hpage. done.
Qed.

Lemma page_loop_run (d : nat) (c : string) (ws : list string) (s : st) :
  doc_is_open d c s ->
  exists a s', page_loop E d ws s = (inr (total_count c ws, any_failed c ws), s') /\
    docs s' !! d = Some (mkDoc c a false) /\ loop_frame s s'.
Proof.
  intros [a0 Ha].
  pose proof (page_loop_frame d ws s) as Hfr.
  unfold page_loop, doc_len, get_doc, bind, ret in *.
  rewrite Ha in *. cbn -[pages_loop] in *.
  destruct (pages_loop_spec d c ws (seq 0 (fz_npages E c)) (0, false) s)
    as [H1 [a Ha']]; [eexists; exact Ha| |].
  - apply Forall_forall. intros i Hi. apply elem_of_seq in Hi. lia.
  - destruct (pages_loop E d ws (seq 0 (fz_npages E c)) (0, false) s) as [r s'].
    cbn in *. subst r. exists a, s'. done.
Qed.

(** ** Relations kept by [_highlight_words] *)

(** The file [q] keeps its bytes [c]. *)
Definition keeps_content (q c : string) (s s' : st) : Prop :=
  fs s !! q = Some c -> fs s' !! q = Some c.

Instance keeps_content_preorder q c : PreOrder (keeps_content q c).
Proof. split; unfold keeps_content; intros ?; auto. Qed.

Lemma frame_keeps_content q c s s' : loop_frame s s' -> keeps_content q c s s'.
Proof. unfold keeps_content. intros (-> & _ & _). auto. Qed.

Lemma loop_frame_content {A} q c (m : M A) :
  preserves loop_frame m -> preserves (keeps_content q c) m.
Proof. apply preserves_weaken, frame_keeps_content. Qed.

Lemma fitz_open_content q c p : preserves (keeps_content q c) (fitz_open E p).
Proof.
  intros s H. unfold fitz_open, read_file, bind, raise in *.
  destruct (fs s !! p); cbn; [|done]. destruct (fz_open_ok E _); done.
Qed.

Lemma doc_save_content q c d p : p <> q -> preserves (keeps_content q c) (doc_save E d p).
Proof.
  intros Hne s H. unfold doc_save, get_doc, bind, raise, ret, set_fs in *.
  repeat (case_match; simplify_eq; cbn -[insert lookup] in * ); try done.
  rewrite lookup_insert_ne by done. done.
Qed.

Lemma unlink_content q c p : p <> q -> preserves (keeps_content q c) (unlink p).
Proof.
  intros Hne s H. unfold unlink, set_fs. case_match; cbn; [|done].
  rewrite lookup_delete_ne by done. done.
Qed.

Lemma repair_pdf_content q c p s :
  fs s !! q = Some c ->
  fs (snd (repair_pdf E p s)) !! q = Some c /\
  (forall a, fst (repair_pdf E p s) = inr a -> a <> Some q).
Proof.
  intros Hq. unfold repair_pdf, named_tmp, pike_repair, read_file, path_exists, unlink,
    ret, bind, attempt, raise, log_, add_log, add_event, set_fs in *.
  cbn. destruct (first_free E (tmp_names E) (fs s)) as [tp|] eqn:Hf; cbn; [|split; [done|congruence]].
  apply first_free_fresh in Hf.
  assert (tp <> q) by (intros ->; congruence).
  repeat (case_match; simplify_eq; cbn -[insert delete lookup] in * ).
  all: split; [|intros a [= <-]; congruence].
  all: repeat first [ rewrite lookup_delete_ne by done | rewrite lookup_insert_ne by done ]; done.
Qed.

Lemma content_bind_dep {A B} q c (m : M A) (k : A -> M B) (P : A -> Prop) :
  (forall s, fs s !! q = Some c ->
     fs (snd (m s)) !! q = Some c /\ (forall a, fst (m s) = inr a -> P a)) ->
  (forall a, P a -> preserves (keeps_content q c) (k a)) ->
  preserves (keeps_content q c) (bind m k).
Proof.
  intros Hm Hk s Hq. unfold bind. destruct (Hm s Hq) as [Hq' Ha].
  destruct (m s) as [[e|a] s1]; cbn in *; [done|].
  apply (Hk a (Ha a eq_refl)), Hq'.
Qed.

#[local] Hint Resolve fitz_open_content : preserve.
#[local] Hint Extern 2 (preserves (keeps_content _ _) _) => apply loop_frame_content : preserve.

Lemma repair_branch_content q c db p : preserves (keeps_content q c) (repair_branch E db p).
Proof.
  unfold repair_branch.
  apply preserves_bind; [typeclasses eauto|eauto with preserve typeclass_instances|intros _].
  apply preserves_bind; [typeclasses eauto|eauto with preserve typeclass_instances|intros _].
  apply (content_bind_dep q c _ _ (fun a => a <> Some q)); [apply repair_pdf_content|].
  intros [rp|] Hrp; [|eauto with preserve typeclass_instances].
  assert (rp <> q) by congruence.
  unfold revalidation_failed.
  assert (preserves (keeps_content q c) (unlink rp)) by (apply unlink_content; done).
  pres.
Qed.

Lemma annotate_and_save_content q c d p ws :
  String.prefix "highlighted_" (path_name q) = false ->
  preserves (keeps_content q c) (annotate_and_save E d p ws).
Proof.
  intros Hq. unfold annotate_and_save.
  assert (preserves (keeps_content q c)
            (doc_save E d (path_join (path_parent p) ("highlighted_" +:+ path_name p)))).
  { apply doc_save_content. intros Heq. rewrite <- Heq, highlighted_name, prefix_app in Hq.
    done. }
  pres.
Qed.

#[local] Hint Resolve repair_branch_content : preserve.

(** ** Properties *)

(** [_get_filename_from_url] returns what follows the last slash. *)
Theorem get_filename_from_url_after_last_slash (pre name : string)
  (Hn : has_slash name = false) :
  get_filename_from_url (pre +:+ "/" +:+ name) = name.
Proof. apply last_segment_join, Hn. Qed.

(** The file name taken from a URL never contains a slash, and it is empty
    for a URL that ends with a slash. *)
Theorem get_filename_from_url_no_slash (url : string) :
  has_slash (get_filename_from_url url) = false /\
  get_filename_from_url (url +:+ "/") = "".
Proof.
  split; [apply last_segment_no_slash|].
  unfold get_filename_from_url, last_segment.
  rewrite split_slash_app. cbn. apply List.last_last.
Qed.

(** [_repair_pdf] on an existing file never raises and does not touch the
    PyMuPDF documents.  It returns [None] exactly when no temporary name is
    free or pikepdf fails on the bytes, and then the files are exactly as
    before (the temporary file it created has been deleted).  When it
    returns a path, that path is a new file of the temporary folder named
    after one of the candidate names with suffix [.pdf], holding pikepdf's
    rewrite of the source bytes, and no other file has changed. *)
Theorem repair_pdf_outcome (p c : string) (s : st) (Hp : fs s !! p = Some c) :
  docs (snd (repair_pdf E p s)) = docs s /\
  (fst (repair_pdf E p s) = inr None <->
     first_free E (tmp_names E) (fs s) = None \/ pk_rewrite E c = None) /\
  match fst (repair_pdf E p s) with
  | inr None => fs (snd (repair_pdf E p s)) = fs s
  | inr (Some rp) =>
      fs s !! rp = None /\
      (exists n, n ∈ tmp_names E /\ rp = path_join (tmp_dir E) (n +:+ ".pdf")) /\
      exists c', pk_rewrite E c = Some c' /\ fs (snd (repair_pdf E p s)) = <[rp := c']> (fs s)
  | inl _ => False
  end.
Proof.
  unfold repair_pdf, named_tmp, pike_repair, read_file, path_exists, unlink,
    ret, bind, attempt, raise, log_, add_log, add_event, set_fs in *.
  cbn. destruct (first_free E (tmp_names E) (fs s)) as [tp|] eqn:Hf; cbn; [|repeat split; auto].
  pose proof (first_free_name _ _ _ Hf) as Hname.
  apply first_free_fresh in Hf.
  assert (tp <> p) by congruence.
  rewrite lookup_insert_ne by done. rewrite Hp. cbn.
  destruct (pk_rewrite E c) as [c'|] eqn:Hr; cbn.
  - split; [done|]. split; [split; [done|intros [Hx|Hx]; discriminate]|].
    split; [done|]. split; [done|]. exists c'. split; [done|]. by rewrite insert_insert_eq.
  - pose proof (lookup_insert_eq (fs s) tp "") as Hl.
    rewrite bool_decide_true by (rewrite Hl; eauto). cbn. rewrite Hl. cbn.
    split; [done|]. split; [split; [auto|done]|].
    by rewrite delete_insert_id.
Qed.


(** ** Documents other than the one being annotated *)

(** Every document other than [d] is as before. *)
Definition docs_except (d : nat) (s s' : st) : Prop :=
  forall d', d' <> d -> docs s' !! d' = docs s !! d'.

Instance docs_except_preorder d : PreOrder (docs_except d).
Proof.
  split; unfold docs_except; [done|].
  intros s1 s2 s3 H12 H23 d' Hd. rewrite H23, H12; done.
Qed.

Ltac except_prim :=
  intros ?s ?d' ?Hd; unfold load_page, doc_len, doc_close, search_for, add_highlight,
    get_doc, ret, bind, catch, attempt, raise, log_, add_log, set_docs in *;
  cbn; repeat (case_match; simplify_eq/=); try done;
  rewrite ?lookup_insert_ne by done; done.

Lemma log_except d l : preserves (docs_except d) (log_ l).
Proof. except_prim. Qed.
Lemma load_page_except d d0 i : preserves (docs_except d) (load_page E d0 i).
Proof. except_prim. Qed.
Lemma doc_len_except d d0 : preserves (docs_except d) (doc_len E d0).
Proof. except_prim. Qed.
Lemma search_for_except d d0 i w : preserves (docs_except d) (search_for E d0 i w).
Proof. except_prim. Qed.
Lemma add_highlight_except d i r : preserves (docs_except d) (add_highlight E d i r).
Proof. except_prim. Qed.

#[local] Hint Resolve log_except load_page_except doc_len_except search_for_except
  add_highlight_except : preserve.

Lemma insts_loop_except d i rs acc : preserves (docs_except d) (insts_loop E d i rs acc).
Proof.
  revert acc. induction rs as [|r rs IH]; intros acc; cbn; eauto 10 with preserve typeclass_instances.
Qed.
#[local] Hint Resolve insts_loop_except : preserve.

Lemma words_loop_except d i ws acc : preserves (docs_except d) (words_loop E d i ws acc).
Proof.
  revert acc. induction ws as [|w ws IH]; intros acc; cbn; eauto 10 with preserve typeclass_instances.
Qed.
#[local] Hint Resolve words_loop_except : preserve.

Lemma pages_loop_except d ws ps acc : preserves (docs_except d) (pages_loop E d ws ps acc).
Proof.
  revert acc. induction ps as [|p ps IH]; intros acc; cbn; eauto 10 with preserve typeclass_instances.
Qed.
#[local] Hint Resolve pages_loop_except : preserve.

Lemma page_loop_except d ws : preserves (docs_except d) (page_loop E d ws).
Proof. unfold page_loop. eauto 10 with preserve typeclass_instances. Qed.

Lemma bind_run {A B} (m : M A) (k : A -> M B) s a s1 :
  m s = (inr a, s1) -> bind m k s = k a s1.
Proof. intros H. unfold bind. rewrite H. done. Qed.

(** [_highlight_words] on a file whose bytes open and validate: no repair
    is attempted and the trace is unchanged; the document is opened as the
    next document and no other document changes.  If no word occurs, nothing
    is saved and the result is [True]; otherwise the annotated copy is
    saved as [highlighted_<name>] beside the source when the save succeeds
    (result [True]); when the save fails the result is [False] and the
    document is left open. *)
Theorem highlight_words_valid_file (dir name c : string) (ws : list string) (s : st)
  (Hn : has_slash name = false)
  (Hp : fs s !! path_join dir name = Some c)
  (Hv : valid_bytes c = true) :
  let hp := path_join dir ("highlighted_" +:+ name) in
  let r := highlight_words E (path_join dir name) ws s in
  trace (snd r) = trace s /\
  (forall d, d <> next_doc s -> docs (snd r) !! d = docs s !! d) /\
  exists a,
    if Nat.eqb (total_count c ws) 0 then
      fst r = inr true /\ fs (snd r) = fs s /\
      docs (snd r) !! next_doc s = Some (mkDoc c a true)
    else if fz_save_ok E hp then
      fst r = inr true /\ fs (snd r) = <[hp := fz_render E c a]> (fs s) /\
      docs (snd r) !! next_doc s = Some (mkDoc c a true)
    else
      fst r = inr false /\
      docs (snd r) !! next_doc s = Some (mkDoc c a false).
Proof.
  intros hp r. subst r.
  set (p := path_join dir name) in *.
  set (d := next_doc s).
  set (s1 := mkSt (fs s) (<[d := mkDoc c [] false]> (docs s)) (S d) (trace s) (log s)).
  assert (Hopen : doc_is_open d c s1) by (exists []; apply lookup_insert_eq).
  destruct (page_loop_run d c ws s1 Hopen) as (a & s2 & Hrun & Hd2 & Hf2 & Ht2 & _).
  pose proof (page_loop_except d ws s1) as Hx2. rewrite Hrun in Hx2. cbn in Hx2.
  assert (Hpp : path_join (path_parent p) ("highlighted_" +:+ path_name p) = hp).
  { unfold p, hp, path_name. rewrite path_parent_join, last_segment_join by done. done. }
  assert (Hhw : highlight_words E p ws s =
                catch (annotate_and_save E d p ws) (fun _ => log_ LError ;; ret false) s1).
  { unfold highlight_words, catch. rewrite (bind_run _ _ _ _ _ (open_or_repair_valid p c s Hp Hv)).
    done. }
  assert (Hs1 : forall d', d' <> d -> docs s2 !! d' = docs s !! d').
  { intros d' Hd'. rewrite Hx2 by done. cbn. rewrite lookup_insert_ne by done. done. }
  cbn in Hf2, Ht2.
  assert (Hrun' : forall k : nat * bool -> M bool, bind (page_loop E d ws) k s1 = k (total_count c ws, any_failed c ws) s2)
    by (intros k; apply bind_run, Hrun).
  destruct (total_count c ws) as [|k] eqn:Htot.
  - assert (HR : exists l, highlight_words E p ws s =
                   (inr true, mkSt (fs s) (<[d := mkDoc c a true]> (docs s2)) (next_doc s2) (trace s) l)).
    { eexists. rewrite Hhw. unfold catch, annotate_and_save. rewrite Hrun'.
      unfold doc_close, bind, ret, log_, add_log, set_docs. cbn -[insert lookup].
      rewrite Hd2. cbn -[insert lookup]. rewrite Hf2, Ht2. reflexivity. }
    destruct HR as [l ->]. cbn -[insert lookup].
    split; [done|]. split; [intros d0 Hd0; rewrite lookup_insert_ne by done; apply Hs1, Hd0|].
    exists a. rewrite lookup_insert_eq. done.
  - destruct (fz_save_ok E hp) eqn:Hsave.
    + assert (HR : exists l, highlight_words E p ws s =
                     (inr true, mkSt (<[hp := fz_render E c a]> (fs s))
                                  (<[d := mkDoc c a true]> (docs s2)) (next_doc s2) (trace s) l)).
      { eexists. rewrite Hhw. unfold catch, annotate_and_save. rewrite Hrun', Hpp.
        unfold doc_save, get_doc, doc_close, bind, ret, log_, add_log, set_docs, set_fs, attempt.
        cbn -[insert lookup]. rewrite Hd2, Hsave. cbn -[insert lookup].
        rewrite Hd2. cbn -[insert lookup]. rewrite Hf2, Ht2. reflexivity. }
      destruct HR as [l ->]. cbn -[insert lookup].
      split; [done|]. split; [intros d0 Hd0; rewrite lookup_insert_ne by done; apply Hs1, Hd0|].
      exists a. rewrite lookup_insert_eq. done.
    + assert (HR : exists l, highlight_words E p ws s =
                     (inr false, mkSt (fs s) (docs s2) (next_doc s2) (trace s) l)).
      { eexists. rewrite Hhw. unfold catch, annotate_and_save. rewrite Hrun', Hpp.
        unfold doc_save, get_doc, doc_close, bind, ret, raise, log_, add_log, set_docs, set_fs, attempt.
        cbn -[insert lookup]. rewrite Hd2, Hsave. cbn -[insert lookup]. rewrite Hf2, Ht2. reflexivity. }
      destruct HR as [l ->]. cbn -[insert lookup].
      split; [done|]. split; [apply Hs1|]. exists a. done.
Qed.

Lemma highlight_words_content q c p ws :
  String.prefix "highlighted_" (path_name q) = false ->
  preserves (keeps_content q c) (highlight_words E p ws).
Proof.
  intros Hq.
  assert (forall d p', preserves (keeps_content q c) (annotate_and_save E d p' ws))
    by (intros; apply annotate_and_save_content, Hq).
  unfold highlight_words, open_or_repair. pres.
Qed.

Lemma highlight_all_content q c files ws acc :
  String.prefix "highlighted_" (path_name q) = false ->
  preserves (keeps_content q c) (highlight_all E files ws acc).
Proof.
  intros Hq. revert acc. induction files as [|f files IH]; intros acc; cbn; [pres|].
  apply preserves_bind; [typeclasses eauto|apply highlight_words_content, Hq|].
  intros []; pres.
Qed.

(** The run of [download_pdfs] on a non-empty list: the downloads, then
    the highlighting step when it applies, then the final log record. *)
Lemma download_pdfs_run urls hw s :
  urls <> [] ->
  exists s2,
    fs s2 = foldl (fun f u => apply_write (fetch_write u) f) (fs s) urls /\
    docs s2 = docs s /\ next_doc s2 = next_doc s /\
    trace s2 = (trace s ++ map Request urls)%list /\
    download_pdfs E urls hw s =
      (if words_truthy hw && negb (bool_decide (somes (map fetch_outcome urls) = []))
       then bind (highlight_all E (somes (map fetch_outcome urls)) (words_list hw) [])
              (fun _ => log_ LInfo ;; ret (somes (map fetch_outcome urls))) s2
       else (inr (somes (map fetch_outcome urls)), add_log LInfo s2)).
Proof.
  intros Hne. destruct urls as [|u us]; [done|]. remember (u :: us) as urls eqn:Hu.
  unfold download_pdfs. rewrite Hu. rewrite <- Hu.
  unfold bind at 1, log_ at 1.
  destruct (gather_spec urls (add_log LInfo s)) as (G1 & G2 & G3 & G4 & G5).
  unfold download_all. unfold bind at 1 2.
  destruct (gather E urls (add_log LInfo s)) as [rs s2]; cbn in G1, G2, G3, G4, G5; subst rs.
  exists s2. repeat split; [done..|].
  cbn -[highlight_all].
  destruct (words_truthy hw && _); [|done].
  unfold bind. destruct (highlight_all E _ _ [] s2) as [[e|r] s3]; done.
Qed.

(** A file present after the downloads whose name does not start with
    [highlighted_] is still there, with the same content, when
    [download_pdfs] returns: highlighting writes only [highlighted_] files. *)
Theorem download_pdfs_keeps_other_files (urls : list string) (hw : words_arg) (s : st)
  (q c : string)
  (Hq : String.prefix "highlighted_" (path_name q) = false)
  (Hc : foldl (fun f u => apply_write (fetch_write u) f) (fs s) urls !! q = Some c) :
  fs (snd (download_pdfs E urls hw s)) !! q = Some c.
Proof.
  destruct (decide (urls = [])) as [->|Hne]; [exact Hc|].
  destruct (download_pdfs_run urls hw s Hne) as (s2 & H1 & _ & _ & _ & ->).
  rewrite <- H1 in Hc.
  destruct (words_truthy hw && _); [|exact Hc].
  pose proof (highlight_all_content q c (somes (map fetch_outcome urls)) (words_list hw) [] Hq s2 Hc) as Hh.
  unfold bind, log_, ret.
  destruct (highlight_all E _ _ [] s2) as [[e|r] s3]; cbn in *; done.
Qed.

(** [_repair_pdf] when pikepdf cannot rewrite the file (or the file is
    missing) and the file is not the temporary file it creates. *)
Lemma repair_pdf_fails p s :
  (forall c, fs s !! p = Some c -> pk_rewrite E c = None) ->
  first_free E (tmp_names E) (fs s) <> Some p ->
  exists l, repair_pdf E p s =
    (inr None, mkSt (fs s) (docs s) (next_doc s) (trace s ++ [RepairCall p]) l).
Proof.
  intros Hc Hfree. unfold repair_pdf, named_tmp, pike_repair, read_file, path_exists, unlink,
    ret, bind, attempt, raise, log_, add_log, add_event, set_fs in *.
  cbn. destruct (first_free E (tmp_names E) (fs s)) as [tp|] eqn:Hf; cbn; [|eexists; done].
  apply first_free_fresh in Hf.
  assert (tp <> p) by congruence.
  pose proof (lookup_insert_eq (fs s) tp "") as Hl.
  rewrite lookup_insert_ne by done.
  destruct (fs s !! p) as [c|] eqn:Hp; cbn.
  - rewrite (Hc c eq_refl). cbn.
    rewrite bool_decide_true by (rewrite Hl; eauto). cbn. rewrite Hl. cbn.
    rewrite delete_insert_id by done. eexists; done.
  - rewrite bool_decide_true by (rewrite Hl; eauto). cbn. rewrite Hl. cbn.
    rewrite delete_insert_id by done. eexists; done.
Qed.

Lemma repair_branch_fails db p s s2 :
  close_if_truthy E db (add_log LWarning s) = (inr tt, s2) ->
  (forall c, fs s !! p = Some c -> pk_rewrite E c = None) ->
  first_free E (tmp_names E) (fs s) <> Some p ->
  exists l, repair_branch E db p s =
    (inr None, mkSt (fs s) (docs s2) (next_doc s2) (trace s ++ [RepairCall p]) l).
Proof.
  intros Hcl Hc Hfree.
  pose proof (close_if_truthy_frame db (add_log LWarning s)) as (Hf & Ht & _).
  rewrite Hcl in Hf, Ht. cbn in Hf, Ht.
  destruct (repair_pdf_fails p s2) as [l Hr]; [rewrite Hf; exact Hc|rewrite Hf; exact Hfree|].
  exists l. unfold repair_branch.
  rewrite (bind_run _ _ _ _ _ (eq_refl : log_ LWarning s = (inr tt, add_log LWarning s))).
  rewrite (bind_run _ _ _ _ _ Hcl), (bind_run _ _ _ _ _ Hr). cbn. rewrite Hf, Ht. done.
Qed.

(** [_highlight_words] on a path that does not exist (and is not a
    temporary repair file) returns [False] after one repair attempt,
    changing no file and no document. *)
Theorem highlight_words_missing_file (p : string) (ws : list string) (s : st)
  (Hp : fs s !! p = None)
  (Htmp : forall n, n ∈ tmp_names E -> p <> path_join (tmp_dir E) (n +:+ ".pdf")) :
  fst (highlight_words E p ws s) = inr false /\
  fs (snd (highlight_words E p ws s)) = fs s /\
  docs (snd (highlight_words E p ws s)) = docs s /\
  trace (snd (highlight_words E p ws s)) = (trace s ++ [RepairCall p])%list.
Proof.
  assert (Ho : attempt (fitz_open E p) s = (inr (inl "FileNotFoundError"), s)).
  { unfold attempt, fitz_open, read_file, bind, raise. rewrite Hp. done. }
  destruct (repair_branch_fails None p s (add_log LWarning s) eq_refl) as [l Hb].
  { intros c Hc. congruence. }
  { intros Hf. apply first_free_name in Hf as (n & Hn & Heq). by apply (Htmp n Hn). }
  assert (Hor : open_or_repair E p s =
                 (inr None, mkSt (fs s) (docs s) (next_doc s) (trace s ++ [RepairCall p]) l)).
  { unfold open_or_repair. rewrite (bind_run _ _ _ _ _ Ho). exact Hb. }
  unfold highlight_words, catch. rewrite (bind_run _ _ _ _ _ Hor). cbn. done.
Qed.

(** [_highlight_words] on a file whose bytes do not validate and that
    pikepdf cannot rewrite returns [False] after one repair attempt; no file
    changes, and the only document added is the one PyMuPDF opened, left
    without annotations. *)
Theorem highlight_words_unrepairable (p c : string) (ws : list string) (s : st)
  (Hp : fs s !! p = Some c)
  (Hinv : valid_bytes c = false)
  (Hpk : pk_rewrite E c = None) :
  fst (highlight_words E p ws s) = inr false /\
  fs (snd (highlight_words E p ws s)) = fs s /\
  docs (snd (highlight_words E p ws s)) =
    (if fz_open_ok E c
     then <[next_doc s := mkDoc c [] (negb (Nat.eqb (fz_npages E c) 0))]> (docs s)
     else docs s) /\
  trace (snd (highlight_words E p ws s)) = (trace s ++ [RepairCall p])%list.
Proof.
  assert (Hfree : forall s', fs s' = fs s -> first_free E (tmp_names E) (fs s') <> Some p).
  { intros s' -> Hf. apply first_free_fresh in Hf. congruence. }
  assert (Hc : forall s', fs s' = fs s -> forall c', fs s' !! p = Some c' -> pk_rewrite E c' = None).
  { intros s' -> c' Hc'. congruence. }
  destruct (fz_open_ok E c) eqn:Hok.
  - set (d := next_doc s).
    set (s1 := mkSt (fs s) (<[d := mkDoc c [] false]> (docs s)) (S d) (trace s) (log s)).
    assert (Ho : attempt (fitz_open E p) s = (inr (inr d), s1)).
    { unfold attempt, fitz_open, read_file, bind, raise. rewrite Hp, Hok. done. }
    assert (Hl : attempt (load_page E d 0) s1 = (inr (inl "IndexError"), s1)).
    { unfold attempt, load_page, get_doc, bind, raise, ret. cbn -[insert lookup Nat.ltb].
      rewrite lookup_insert_eq. cbn -[insert lookup Nat.ltb].
      unfold valid_bytes in Hinv. rewrite Hok in Hinv. cbn in Hinv.
      destruct (fz_npages E c) as [|n]; [done|]. cbn in Hinv |- *. rewrite Hinv. done. }
    set (s2 := mkSt (fs s) (<[d := mkDoc c [] (negb (Nat.eqb (fz_npages E c) 0))]> (docs s)) (S d)
                 (trace s) (log s ++ [LWarning])).
    assert (Hcl : close_if_truthy E (Some d) (add_log LWarning s1) = (inr tt, s2)).
    { unfold close_if_truthy, doc_truthy, doc_len, get_doc, doc_close, bind, ret, set_docs, add_log.
      cbn -[insert lookup]. rewrite lookup_insert_eq. cbn -[insert lookup].
      destruct (Nat.eqb (fz_npages E c) 0); cbn -[insert lookup].
      - done.
      - rewrite lookup_insert_eq. cbn -[insert lookup]. unfold s2. rewrite insert_insert_eq. done. }
    destruct (repair_branch_fails (Some d) p s1 s2 Hcl) as [l Hb];
      [apply Hc; done|apply Hfree; done|].
    assert (Hor : open_or_repair E p s =
                  (inr None, mkSt (fs s) (docs s2) (next_doc s2) (trace s ++ [RepairCall p]) l)).
    { unfold open_or_repair. rewrite (bind_run _ _ _ _ _ Ho), (bind_run _ _ _ _ _ Hl). exact Hb. }
    unfold highlight_words, catch. rewrite (bind_run _ _ _ _ _ Hor). cbn. done.
  - assert (Ho : attempt (fitz_open E p) s = (inr (inl "FileDataError"), s)).
    { unfold attempt, fitz_open, read_file, bind, raise. rewrite Hp, Hok. done. }
    destruct (repair_branch_fails None p s (add_log LWarning s) eq_refl) as [l Hb];
      [apply Hc; done|apply Hfree; done|].
    assert (Hor : open_or_repair E p s =
                  (inr None, mkSt (fs s) (docs s) (next_doc s) (trace s ++ [RepairCall p]) l)).
    { unfold open_or_repair. rewrite (bind_run _ _ _ _ _ Ho). exact Hb. }
    unfold highlight_words, catch. rewrite (bind_run _ _ _ _ _ Hor). cbn. done.
Qed.


(** * Claims *)

(** Claim C1 (as amended): for a non-empty URL list, [download_pdfs]
    returns, in input order, only the destination paths of the URLs whose
    fetch-and-write succeeded; a failed URL leaves no entry (there is no
    failure value), so the result is at most as long as the input and
    exactly as long only when every download succeeded. *)
Theorem download_pdfs_drops_failed_urls (urls : list string) (hw : words_arg) (s : st)
  (Hne : urls <> []) :
  exists r, fst (download_pdfs E urls hw s) = inr r /\
    r = somes (map fetch_outcome urls) /\
    length r <= length urls /\
    (length r = length urls <-> Forall (fun u => is_Some (fetch_outcome u)) urls).
Proof.
  destruct (download_pdfs_result urls hw s Hne) as [Hr _].
  exists (somes (map fetch_outcome urls)). split; [exact Hr|]. split; [done|].
  apply somes_map_length.
Qed.


(** Claim C5: for a document file whose bytes [c] do not validate,
    [_repair_pdf] is called exactly once (and never for bytes that
    validate); if no repaired version of [c] validates, the pipeline ends
    with [False] without a second repair. *)
Theorem highlight_words_repairs_at_most_once (p : string) (ws : list string) (s : st) (c : string)
  (Hp : fs s !! p = Some c) :
  trace (snd (highlight_words E p ws s)) =
    (trace s ++ (if valid_bytes c then [] else [RepairCall p]))%list /\
  (valid_bytes c = false ->
   (forall c', pk_rewrite E c = Some c' -> valid_bytes c' = false) ->
   fst (highlight_words E p ws s) = inr false).
Proof.
  split.
  - unfold highlight_words. apply catch_trace; [|intros; pres].
    apply bind_trace; [apply open_or_repair_trace, Hp|].
    intros [[d p']|]; [apply annotate_and_save_trace|pres].
  - intros Hinv Hrep.
    destruct (highlight_words_total p ws s) as [b Hb]. rewrite Hb.
    destruct b; [exfalso|done].
    unfold highlight_words, catch in Hb.
    destruct (bind (open_or_repair E p) _ s) as [[e|b'] s1] eqn:Hbody.
    + unfold bind, log_, ret in Hb. cbn in Hb. congruence.
    + cbn in Hb. injection Hb as ->.
      assert (Hf : fst (bind (open_or_repair E p)
                     (fun r => match r with
                               | Some (doc, pdf_path') => annotate_and_save E doc pdf_path' ws
                               | None => ret false
                               end) s) = inr true) by (rewrite Hbody; done).
      apply bind_inr in Hf as (a & s2 & Ho & Hk).
      destruct a as [[d p']|]; [|cbn in Hk; congruence].
      destruct (open_or_repair_result p s c (d, p') Hp Hinv) as (c' & Hc' & Hv);
        [rewrite Ho; done|].
      rewrite (Hrep c' Hc') in Hv. discriminate.
Qed.

(** Claim C8: on an open document, the page loop of [_highlight_words]
    (lines 175-202) always finishes normally: a page that does not load,
    a search that raises and an annotation that fails are each recorded
    in [has_errors] and skipped, and [num_highlights] counts exactly the
    annotations that succeeded on every loadable page for every word; the
    document stays open with the same bytes for the save step. *)
Theorem page_loop_partial_failures (d : nat) (c : string) (ws : list string) (s : st)
  (Hopen : doc_is_open d c s) :
  fst (page_loop E d ws s) = inr (total_count c ws, any_failed c ws) /\
  doc_is_open d c (snd (page_loop E d ws s)).
Proof.
  destruct Hopen as [a Ha].
  unfold page_loop, doc_len, get_doc, bind, ret.
  rewrite Ha. cbn -[pages_loop].
  destruct (pages_loop_spec d c ws (seq 0 (fz_npages E c)) (0, false) s)
    as [H1 H2]; [eexists; exact Ha| |].
  - apply Forall_forall. intros i Hi. apply elem_of_seq in Hi. lia.
  - rewrite H1 in *. cbn in *. split; [done|exact H2].
Qed.

(** Claim C9: [download_pdfs] with an empty URL list returns [[]]
    normally, with no request, no file and no document touched; its only
    effect is one warning record handed to [logging]. *)
Theorem download_pdfs_empty_is_noop (hw : words_arg) (s : st) :
  fst (download_pdfs E [] hw s) = inr [] /\
  fs (snd (download_pdfs E [] hw s)) = fs s /\
  docs (snd (download_pdfs E [] hw s)) = docs s /\
  trace (snd (download_pdfs E [] hw s)) = trace s /\
  log (snd (download_pdfs E [] hw s)) = (log s ++ [LWarning])%list.
Proof. cbn. repeat split. Qed.


(** Claim C7 (as amended): a payload that does not start with [%PDF] is
    rejected with [None], the same value as a transport failure (there is
    no distinct format-mismatch result), and no file is written. *)
Theorem download_pdf_rejects_non_pdf (url : string) (s : st) (status : Z) (content : string)
  (Hget : http_get E url = Some (status, content))
  (Hsig : substring 0 4 content <> "%PDF") :
  fst (download_pdf E url s) = inr None /\
  fs (snd (download_pdf E url s)) = fs s.
Proof.
  destruct (download_pdf_spec url s) as (H1 & H2 & _).
  assert (Hw : fetch_write url = None).
  { unfold fetch_write. rewrite Hget.
    destruct (String.eqb_spec (substring 0 4 content) "%PDF"); [done|].
    rewrite andb_false_r. cbn. destruct (Z.eqb status 200); done. }
  assert (Ho : fetch_outcome url = None).
  { unfold fetch_outcome. rewrite Hget.
    destruct (String.eqb_spec (substring 0 4 content) "%PDF"); [done|].
    rewrite andb_false_r. cbn. destruct (Z.eqb status 200); done. }
  rewrite Ho in H1. rewrite Hw in H2. auto.
Qed.

End Proofs.

(** * Properties of [parldocs_trefwoord.py] *)

Section ParlProofs.
Variable PE : ParlEnv.

(** ** String helpers *)

Lemma rstrip_idem (s : string) : rstrip (rstrip s) = rstrip s.
Proof.
  induction s as [|c s IH]; [done|]. cbn [rstrip].
  destruct (py_isspace c && String.eqb (rstrip s) "") eqn:Hc; [done|].
  cbn [rstrip]. rewrite IH, Hc. done.
Qed.

Lemma lstrip_rstrip_lstrip (s : string) : lstrip (rstrip (lstrip s)) = rstrip (lstrip s).
Proof.
  induction s as [|c s IH]; [done|]. cbn [lstrip].
  destruct (py_isspace c) eqn:Hc; [exact IH|].
  cbn [rstrip]. rewrite Hc. cbn. rewrite Hc. done.
Qed.

Lemma strip_idem (s : string) : strip (strip s) = strip s.
Proof. unfold strip. rewrite lstrip_rstrip_lstrip, rstrip_idem. done. Qed.

Lemma field_value_stripped (e : option xml) : strip (field_value e) = field_value e.
Proof.
  destruct e as [[t [x|] ks]|]; cbn; try done.
  destruct (String.eqb x ""); [done|]. apply strip_idem.
Qed.


(** ** [_build_record] *)

Lemma build_record_some (rec rd : xml) :
  find_child rec (qname ns_sru "recordData") = Some rd ->
  exists (fields : dict) (id : string),
    build_record rec =
      <["pdf_url" := (if String.eqb id "" then "" else pdf_url_prefix +:+ id +:+ ".pdf")]> fields /\
    fields = list_to_map (map (fun '(field, t) => (field, field_value (find_desc rd t))) record_fields) /\
    fields !! "identifier" = Some id.
Proof.
  intros Hrd. unfold build_record. rewrite Hrd.
  set (fields := list_to_map _ : dict).
  assert (Hid : fields !! "identifier" = Some (field_value (find_desc rd (qname ns_dcterms "identifier")))).
  { unfold fields, dict. cbn -[list_to_map field_value find_desc qname insert lookup]. rewrite list_to_map_cons. apply lookup_insert_eq. }
  rewrite Hid. exists fields, (field_value (find_desc rd (qname ns_dcterms "identifier"))).
  split; [|done]. destruct (String.eqb _ ""); done.
Qed.

(** A record with [recordData] gets exactly the CSV field names as keys,
    every field except [pdf_url] is stripped, and [pdf_url] is empty for an
    empty identifier and the publication URL of the identifier otherwise. *)
Theorem build_record_fields (rec rd : xml)
  (Hrd : find_child rec (qname ns_sru "recordData") = Some rd) :
  (forall k, is_Some (build_record rec !! k) <-> k ∈ csv_fieldnames) /\
  (forall k v, k <> "pdf_url" -> build_record rec !! k = Some v -> strip v = v) /\
  exists id, build_record rec !! "identifier" = Some id /\
    build_record rec !! "pdf_url" =
      Some (if String.eqb id "" then "" else pdf_url_prefix +:+ id +:+ ".pdf").
Proof.
  destruct (build_record_some rec rd Hrd) as (fields & id & -> & Hf & Hid).
  split; [|split].
  - intros k. unfold dict in *. rewrite lookup_insert_is_Some', Hf. cbn -[list_to_map field_value find_desc qname insert lookup].
    rewrite !list_to_map_cons, list_to_map_nil, !lookup_insert_is_Some', lookup_empty.
    unfold csv_fieldnames. rewrite !elem_of_cons, elem_of_nil.
    split; intros H; repeat destruct H as [H|H]; subst; try (by destruct H); naive_solver.
  - intros k v Hk. unfold dict in *. rewrite lookup_insert_ne by congruence. rewrite Hf. cbn -[list_to_map field_value find_desc qname insert lookup].
    rewrite !list_to_map_cons, list_to_map_nil.
    intros Hv. repeat (apply lookup_insert_Some in Hv as [[_ <-]|[_ Hv]]; [apply field_value_stripped|]).
    rewrite lookup_empty in Hv. done.
  - unfold dict in *. exists id. split; [|apply lookup_insert_eq]. rewrite lookup_insert_ne by done. exact Hid.
Qed.


(** ** [fetch_records] *)


Lemma empty_record_no_pdf_url : empty_record !! "pdf_url" = None.
Proof. vm_compute. reflexivity. Qed.

Lemma build_record_pdf_url (rec : xml) :
  has_pdf_url rec = bool_decide (is_Some (find_child rec (qname ns_sru "recordData"))).
Proof.
  unfold has_pdf_url, build_record, dict.
  destruct (find_child rec (qname ns_sru "recordData")) as [rd|].
  - rewrite !bool_decide_eq_true_2; [done..|].
    destruct (String.eqb _ ""); rewrite lookup_insert_eq; eauto.
  - vm_compute. reflexivity.
Qed.

Lemma collect_spec recs records urls :
  collect recs records urls =
    if forallb has_pdf_url recs
    then Some ((records ++ map build_record recs)%list, (urls ++ nonempty_urls (map build_record recs))%list)
    else None.
Proof.
  revert records urls. induction recs as [|r recs IH]; intros records urls.
  { cbn. rewrite !app_nil_r. done. }
  cbn [collect forallb map]. unfold has_pdf_url at 1.
  destruct (build_record r !! "pdf_url") as [u|] eqn:Hu; cbn [andb].
  - rewrite bool_decide_eq_true_2 by eauto. rewrite IH.
    destruct (forallb has_pdf_url recs); [|done].
    unfold nonempty_urls. cbn [map concat]. unfold url_of at 2. rewrite Hu.
    rewrite <- !app_assoc. cbn [app andb]. destruct (String.eqb u ""); cbn [app]; rewrite <- ?app_assoc; done.
  - rewrite bool_decide_eq_false_2; [done|]. intros [? ?]; congruence.
Qed.

Lemma fetch_and_parse_xml_state s :
  obj (snd (fetch_and_parse_xml PE s)) = obj s /\
  sent (snd (fetch_and_parse_xml PE s)) = (sent s ++ [params (obj s)])%list.
Proof.
  unfold fetch_and_parse_xml.
  destruct (sru_get PE _) as [[status c]|]; [|done].
  destruct (http_error status); [done|]. destruct (xml_parse PE c); done.
Qed.

Lemma has_diagnostic_error_state root s :
  obj (snd (has_diagnostic_error root s)) = obj s /\ sent (snd (has_diagnostic_error root s)) = sent s.
Proof. unfold has_diagnostic_error. destruct (find_desc _ _); done. Qed.

(** One pass of the loop that returned: it stopped with what was
    collected before, or raised, or processed a non-empty page of records
    and then stopped or went on with the parameters asking for the record
    after those received. *)
Lemma fetch_loop_inv fuel records urls s r s' :
  fetch_loop PE (S fuel) records urls s = Some (r, s') ->
  exists s2,
    obj s2 = obj s /\ sent s2 = (sent s ++ [params (obj s)])%list /\
    ((r = inr (records, urls) /\ s' = s2) \/
     (exists e, r = inl e /\ s' = s2) \/
     exists recs total status c root,
       sru_get PE (params (obj s)) = Some (status, c) /\
       xml_parse PE c = Some root /\
       py_int (findtext_desc root (qname ns_sru "numberOfRecords") "0") = Some total /\
       recs <> [] /\ forallb has_pdf_url recs = true /\
       let start := (start_record (obj s) + Z.of_nat (length recs))%Z in
       let records' := (records ++ map build_record recs)%list in
       let urls' := (urls ++ nonempty_urls (map build_record recs))%list in
       let s3 := set_obj (set_start_record start (obj s2)) (ps_log LInfo s2) in
       ((total < start)%Z /\ r = inr (records', urls') /\ s' = s3) \/
       ((start <= total)%Z /\
        fetch_loop PE fuel records' urls' (set_obj (set_param_start start (obj s3)) s3) = Some (r, s'))).
Proof.
  intros Hrun. cbn [fetch_loop] in Hrun.
  pose proof (fetch_and_parse_xml_state s) as [Ho1 Hs1].
  destruct (fetch_and_parse_xml PE s) as [root s1] eqn:Hfp. cbn in Ho1, Hs1.
  destruct root as [root|]; [|exists s1; injection Hrun as <- <-; auto].
  pose proof (has_diagnostic_error_state root s1) as [Ho2 Hs2].
  destruct (has_diagnostic_error root s1) as [diag s2] eqn:Hd. cbn in Ho2, Hs2.
  exists s2. split; [congruence|]. split; [congruence|].
  destruct diag; [injection Hrun as <- <-; auto|].
  destruct (findall_desc root _) as [|r0 rs] eqn:Hrecs; [injection Hrun as <- <-; auto|].
  rewrite collect_spec in Hrun.
  destruct (forallb has_pdf_url (r0 :: rs)) eqn:Hall; [|injection Hrun as <- <-; eauto 6].
  destruct (py_int _) as [total|] eqn:Htot; [|injection Hrun as <- <-; eauto 6].
  assert (Hresp : exists status c, sru_get PE (params (obj s)) = Some (status, c) /\
                                   xml_parse PE c = Some root).
  { unfold fetch_and_parse_xml in Hfp.
    destruct (sru_get PE _) as [[status c]|]; [|done].
    destruct (http_error status); [done|]. destruct (xml_parse PE c) eqn:Hx; [|done].
    injection Hfp as -> _. eauto. }
  destruct Hresp as (status & c & Hget & Hparse).
  right; right. exists (r0 :: rs), total, status, c, root.
  do 5 (split; [done|]).
  rewrite Ho2, Ho1 in Hrun. cbn zeta.
  destruct (Z.ltb_spec total (start_record (obj s) + Z.of_nat (length (r0 :: rs)))) as [Hlt|Hge].
  - left. injection Hrun as <- <-. rewrite Ho2, Ho1. auto.
  - right. split; [lia|]. rewrite <- Hrun. rewrite Ho2, Ho1. done.
Qed.

(** One pass of the loop that did not stop within the fuel: it processed
    a non-empty page whose announced total is not below the next start. *)
Lemma fetch_loop_none fuel records urls s :
  fetch_loop PE (S fuel) records urls s = None ->
  exists (recs : list xml) total status c root,
    sru_get PE (params (obj s)) = Some (status, c) /\
    xml_parse PE c = Some root /\
    py_int (findtext_desc root (qname ns_sru "numberOfRecords") "0") = Some total /\
    recs <> [] /\
    (start_record (obj s) + Z.of_nat (length recs) <= total)%Z /\
    exists records' urls' s4,
      start_record (obj s4) = (start_record (obj s) + Z.of_nat (length recs))%Z /\
      fetch_loop PE fuel records' urls' s4 = None.
Proof.
  intros Hrun. cbn [fetch_loop] in Hrun.
  pose proof (fetch_and_parse_xml_state s) as [Ho1 _].
  destruct (fetch_and_parse_xml PE s) as [root s1] eqn:Hfp. cbn in Ho1.
  destruct root as [root|]; [|done].
  pose proof (has_diagnostic_error_state root s1) as [Ho2 _].
  destruct (has_diagnostic_error root s1) as [diag s2] eqn:Hd. cbn in Ho2.
  destruct diag; [done|].
  destruct (findall_desc root _) as [|r0 rs] eqn:Hrecs; [done|].
  destruct (collect _ _ _) as [[records' urls']|]; [|done].
  destruct (py_int _) as [total|] eqn:Htot; [|done].
  assert (Hresp : exists status c, sru_get PE (params (obj s)) = Some (status, c) /\
                                   xml_parse PE c = Some root).
  { unfold fetch_and_parse_xml in Hfp.
    destruct (sru_get PE _) as [[status c]|]; [|done].
    destruct (http_error status); [done|]. destruct (xml_parse PE c) eqn:Hx; [|done].
    injection Hfp as -> _. eauto. }
  destruct Hresp as (status & c & Hget & Hparse).
  exists (r0 :: rs), total, status, c, root.
  do 4 (split; [done|]).
  rewrite Ho2, Ho1 in Hrun.
  destruct (Z.ltb_spec total (start_record (obj s) + Z.of_nat (length (r0 :: rs)))) as [Hlt|Hge];
    [done|].
  split; [exact Hge|]. eexists _, _, _. split; [|exact Hrun]. done.
Qed.

Lemma fetch_loop_collects fuel records urls s records' urls' s' :
  fetch_loop PE fuel records urls s = Some (inr (records', urls'), s') ->
  exists new,
    records' = (records ++ new)%list /\ urls' = (urls ++ nonempty_urls new)%list /\
    Forall (fun r => is_Some (r !! "pdf_url")) new /\
    start_record (obj s') = (start_record (obj s) + Z.of_nat (length new))%Z.
Proof.
  revert records urls s. induction fuel as [|fuel IH]; intros records urls s Hrun; [done|].
  apply fetch_loop_inv in Hrun as (s2 & Ho & Hs & Hcases).
  destruct Hcases as [[[= -> ->] ->]|[[e [? _]]|Hpage]]; [|done|].
  { exists []. rewrite !app_nil_r, Ho. cbn. split; [done|]. split; [done|]. split; [done|]. lia. }
  destruct Hpage as (recs & total & status & c & root & _ & _ & _ & Hne & Hall & Hcase).
  assert (Hnew : Forall (fun r => is_Some (r !! "pdf_url")) (map build_record recs)).
  { apply Forall_map, List.Forall_forall. intros rec Hrec.
    apply forallb_forall with (x := rec) in Hall; [|exact Hrec].
    unfold has_pdf_url in Hall. apply bool_decide_eq_true in Hall. exact Hall. }
  cbn zeta in Hcase.
  destruct Hcase as [(_ & [= -> ->] & ->)|(_ & Hrun)].
  - exists (map build_record recs). cbn. rewrite length_map. auto.
  - apply IH in Hrun as (new & -> & -> & Hf & Hst).
    exists (map build_record recs ++ new)%list. rewrite <- !app_assoc.
    split; [done|]. split.
    { unfold nonempty_urls. rewrite map_app, concat_app. done. }
    split; [apply Forall_app; done|].
    rewrite Hst. cbn. rewrite length_app, length_map. lia.
Qed.

Lemma fetch_loop_sent fuel records urls s r s' :
  p_startRecord (params (obj s)) = start_record (obj s) ->
  fetch_loop PE fuel records urls s = Some (r, s') ->
  exists l, sent s' = (sent s ++ params (obj s) :: l)%list /\
    Forall (fun p => p_query p = p_query (params (obj s)) /\
                     p_maximumRecords p = p_maximumRecords (params (obj s))) l /\
    StronglySorted Z.lt (map p_startRecord (params (obj s) :: l)).
Proof.
  revert records urls s. induction fuel as [|fuel IH]; intros records urls s Hinv Hrun; [done|].
  apply fetch_loop_inv in Hrun as (s2 & Ho & Hs & Hcases).
  assert (Hstop : sent s' = sent s2 -> exists l, sent s' = (sent s ++ params (obj s) :: l)%list /\
    Forall (fun p => p_query p = p_query (params (obj s)) /\
                     p_maximumRecords p = p_maximumRecords (params (obj s))) l /\
    StronglySorted Z.lt (map p_startRecord (params (obj s) :: l))).
  { intros Hs'. exists []. rewrite Hs', Hs. split; [done|]. split; [done|]. repeat constructor. }
  destruct Hcases as [[_ ->]|[[e [_ ->]]|Hpage]]; [auto|auto|].
  destruct Hpage as (recs & total & status & c & root & _ & _ & _ & Hne & _ & Hcase).
  cbn zeta in Hcase.
  destruct Hcase as [(_ & _ & ->)|(_ & Hrun)]; [apply Hstop; done|].
  apply IH in Hrun as (l & Hl & Hq & Hsort); [|done].
  cbn in Hl, Hq, Hsort |- *. rewrite ?Ho in Hl. rewrite ?Ho in Hq. rewrite ?Ho in Hsort.
  eexists. split; [rewrite Hl, Hs, <- app_assoc; done|].
  split.
  { constructor; [cbn; done|]. eapply Forall_impl; [exact Hq|]. cbn. done. }
  constructor; [exact Hsort|].
  apply StronglySorted_inv in Hsort as [_ Hsort].
  constructor.
  - cbn. rewrite Hinv. destruct recs; [done|]. cbn. lia.
  - eapply Forall_impl; [exact Hsort|]. cbn. intros x Hx. rewrite Hinv.
    destruct recs; [done|]. cbn in Hx. lia.
Qed.

(** ** [write_csv] *)


Lemma build_record_some_keys (rec rd : xml) (k : string) :
  find_child rec (qname ns_sru "recordData") = Some rd ->
  is_Some (build_record rec !! k) <-> k ∈ csv_fieldnames.
Proof.
  intros Hrd. destruct (build_record_some rec rd Hrd) as (fields & id & -> & Hf & Hid).
  unfold dict in *. rewrite lookup_insert_is_Some', Hf.
  cbn -[list_to_map field_value find_desc qname insert lookup].
  rewrite !list_to_map_cons, list_to_map_nil, !lookup_insert_is_Some', lookup_empty.
  unfold csv_fieldnames. rewrite !elem_of_cons, elem_of_nil.
  split; intros H; repeat destruct H as [H|H]; subst; try (by destruct H); naive_solver.
Qed.

Lemma build_record_keys_ok (rec : xml) : keys_ok (build_record rec).
Proof.
  intros k Hk. destruct (find_child rec (qname ns_sru "recordData")) as [rd|] eqn:Hrd.
  - apply (build_record_some_keys rec rd k Hrd), Hk.
  - unfold build_record in Hk. rewrite Hrd in Hk. unfold empty_record, dict in Hk.
    rewrite !list_to_map_cons, list_to_map_nil, !lookup_insert_is_Some', lookup_empty in Hk.
    unfold csv_fieldnames. rewrite !elem_of_cons.
    repeat destruct Hk as [Hk|Hk]; subst; try (by destruct Hk); naive_solver.
Qed.

Lemma dict_to_list_ok (r : dict) :
  keys_ok r -> is_Some (dict_to_list csv_fieldnames r).
Proof.
  intros Hr. unfold dict_to_list.
  rewrite (proj2 (forallb_forall _ _)); [eauto|].
  intros [k v] Hkv. apply bool_decide_eq_true. cbn.
  apply Hr. exists v. apply elem_of_map_to_list, list_elem_of_In, Hkv.
Qed.

Lemma csv_rows_ok (records : list dict) :
  Forall keys_ok records -> snd (csv_rows records) = None.
Proof.
  induction 1 as [|r rs Hr Hrs IH]; [done|]. cbn.
  destruct (dict_to_list_ok r Hr) as [fields ->].
  destruct (csv_rows rs) as [t e]. cbn in *. done.
Qed.

Lemma csv_rows_stop (records1 : list dict) (r : dict) (records2 : list dict) :
  Forall keys_ok records1 -> dict_to_list csv_fieldnames r = None ->
  csv_rows (records1 ++ r :: records2) = (fst (csv_rows records1), Some "ValueError").
Proof.
  intros H1 Hr. induction H1 as [|r1 rs Hr1 Hrs IH]; cbn; [rewrite Hr; done|].
  destruct (dict_to_list_ok r1 Hr1) as [fields ->]. rewrite IH.
  destruct (csv_rows rs) as [t e]. done.
Qed.

Lemma dict_to_list_extra (r : dict) (k : string) :
  is_Some (r !! k) -> k ∉ csv_fieldnames -> dict_to_list csv_fieldnames r = None.
Proof.
  intros [v Hv] Hk. unfold dict_to_list.
  destruct (forallb _ _) eqn:Hall; [|done].
  exfalso. apply Hk.
  apply (proj1 (forallb_forall _ _)) with (x := (k, v)) in Hall.
  - apply bool_decide_eq_true in Hall. exact Hall.
  - apply list_elem_of_In, elem_of_map_to_list, Hv.
Qed.


(** [write_csv] on records built by [_build_record] succeeds when an
    existing file at the path can be removed, the path can be opened and
    the disk takes the text: the file then holds the header followed by one
    row per record, replacing any earlier file, and no other file changes. *)
Theorem write_csv_built_records (recs : list xml) (csv_path : string) (s : pstate)
  (Hrm : is_Some (pfs s !! csv_path) -> csv_removable PE csv_path = true)
  (Hw : csv_writable PE csv_path = true)
  (Hok : csv_write_ok PE csv_path
           (csv_row csv_fieldnames +:+ fst (csv_rows (map build_record recs))) = true) :
  let r := write_csv PE (map build_record recs) csv_path s in
  fst r = inr tt /\
  pfs (snd r) = <[csv_path := csv_row csv_fieldnames +:+ fst (csv_rows (map build_record recs))]> (pfs s).
Proof.
  cbn zeta.
  assert (Hnone : snd (csv_rows (map build_record recs)) = None).
  { apply csv_rows_ok, List.Forall_forall. intros r Hr.
    apply in_map_iff in Hr as (rec & <- & _). apply build_record_keys_ok. }
  unfold write_csv. destruct (csv_rows (map build_record recs)) as [rows err] eqn:Hrows.
  cbn in Hnone, Hok. subst err.
  destruct (pfs s !! csv_path) eqn:Hex.
  - rewrite Hrm by eauto. cbn. rewrite Hw, Hok. cbn. split; [done|].
    by rewrite insert_delete_eq.
  - cbn. rewrite Hw, Hok. done.
Qed.

(** A record with a key outside the field names makes [write_csv] raise
    [ValueError] when the file could be replaced and the disk takes the
    text before that record; the file keeps the header and the rows of the
    records before it. *)
Theorem write_csv_extra_key (records1 : list dict) (r : dict) (records2 : list dict)
  (k : string) (csv_path : string) (s : pstate)
  (H1 : Forall keys_ok records1) (Hk : is_Some (r !! k)) (Hnk : k ∉ csv_fieldnames)
  (Hrm : is_Some (pfs s !! csv_path) -> csv_removable PE csv_path = true)
  (Hw : csv_writable PE csv_path = true)
  (Hok : csv_write_ok PE csv_path (csv_row csv_fieldnames +:+ fst (csv_rows records1)) = true) :
  let res := write_csv PE (records1 ++ r :: records2) csv_path s in
  fst res = inl "ValueError" /\
  pfs (snd res) = <[csv_path := csv_row csv_fieldnames +:+ fst (csv_rows records1)]> (pfs s).
Proof.
  cbn zeta. unfold write_csv.
  rewrite (csv_rows_stop records1 r records2 H1 (dict_to_list_extra r k Hk Hnk)).
  destruct (pfs s !! csv_path) eqn:Hex.
  - rewrite Hrm by eauto. cbn. rewrite Hw, Hok. cbn. split; [done|].
    by rewrite insert_delete_eq.
  - cbn. rewrite Hw, Hok. done.
Qed.





(** ** [fetch_records] *)

(** The URLs returned by [fetch_records] are the non-empty [pdf_url]s of
    the returned records, in order; every returned record has a [pdf_url];
    [start_record] has advanced by the number of records. *)
Theorem fetch_records_result (fuel : nat) (s : pstate) (records : list dict) (urls : list string)
  (s' : pstate) (Hrun : fetch_records PE fuel s = Some (inr (records, urls), s')) :
  urls = nonempty_urls records /\
  Forall (fun r => is_Some (r !! "pdf_url")) records /\
  start_record (obj s') = (start_record (obj s) + Z.of_nat (length records))%Z.
Proof.
  apply fetch_loop_collects in Hrun as (new & -> & -> & Hall & Hst). done.
Qed.

(** From a fresh object, [fetch_records] first requests with the initial
    parameters; every later request has the same query and page size, and
    the [startRecord]s of the requests strictly increase. *)
Theorem fetch_records_requests (fuel : nat) (terms : terms_arg) (m : Z) (s : pstate) r s'
  (Ho : obj s = init_pd terms m) (Hrun : fetch_records PE fuel s = Some (r, s')) :
  exists l, sent s' = (sent s ++ params (init_pd terms m) :: l)%list /\
    Forall (fun p => p_query p = p_query (params (init_pd terms m)) /\ p_maximumRecords p = m) l /\
    StronglySorted Z.lt (map p_startRecord (params (init_pd terms m) :: l)).
Proof.
  apply fetch_loop_sent in Hrun as (l & Hs & Hq & Hsort); [|by rewrite Ho].
  rewrite Ho in Hs, Hq, Hsort. exists l. split; [done|]. split; [|done].
  eapply Forall_impl; [exact Hq|]. intros p [Hp1 Hp2]. split; [done|]. rewrite Hp2. done.
Qed.

(** If the server never reports more than [T] records, the loop of
    [fetch_records] stops after at most [max 1 (T + 2 - startRecord)]
    passes, [startRecord] being the one of the object it starts from. *)
Theorem fetch_records_terminates (T : Z) (fuel : nat) (s : pstate)
  (Hbound : forall p status c root t, sru_get PE p = Some (status, c) -> xml_parse PE c = Some root ->
            py_int (findtext_desc root (qname ns_sru "numberOfRecords") "0") = Some t -> (t <= T)%Z)
  (Hfuel : (Z.to_nat (T + 1 - start_record (obj s)) < fuel)%nat) :
  is_Some (fetch_records PE fuel s).
Proof.
  unfold fetch_records. generalize (@nil dict) (@nil string). revert s Hfuel.
  induction fuel as [|fuel IH]; intros s Hfuel records urls; [lia|].
  destruct (fetch_loop PE (S fuel) records urls s) eqn:Hrun; [eauto|exfalso].
  apply fetch_loop_none in Hrun
    as (recs & total & status & c & root & Hget & Hparse & Htot & Hne & Hle & records' & urls' & s4 & Hs4 & Hnone).
  pose proof (Hbound _ _ _ _ _ Hget Hparse Htot) as HT.
  destruct recs as [|r0 recs]; [done|]. cbn [length] in *.
  destruct (IH s4 ltac:(rewrite Hs4; lia) records' urls') as [x Hx]. congruence.
Qed.

(** A page holding a record without [recordData] makes [fetch_records]
    raise [KeyError] at that page, after one request, whatever the other
    records. *)
Theorem fetch_records_record_without_data (fuel : nat) (s : pstate) status c root (rec : xml)
  (Hget : sru_get PE (params (obj s)) = Some (status, c)) (Hst : http_error status = false)
  (Hparse : xml_parse PE c = Some root) (Hdiag : find_desc root (qname ns_diag "diagnostic") = None)
  (Hrec : In rec (findall_desc root (qname ns_sru "record")))
  (Hnodata : find_child rec (qname ns_sru "recordData") = None) :
  exists s', fetch_records PE (S fuel) s = Some (inl "KeyError", s') /\
    sent s' = (sent s ++ [params (obj s)])%list /\ obj s' = obj s.
Proof.
  unfold fetch_records. cbn [fetch_loop]. unfold fetch_and_parse_xml.
  rewrite Hget, Hst, Hparse. cbn -[findall_desc collect]. unfold has_diagnostic_error. rewrite Hdiag.
  cbn -[findall_desc collect].
  assert (Hf : forallb has_pdf_url (findall_desc root (qname ns_sru "record")) = false).
  { apply not_true_is_false. intros Hall.
    apply (proj1 (forallb_forall _ _)) with (x := rec) in Hall; [|done].
    rewrite build_record_pdf_url, Hnodata in Hall. done. }
  destruct (findall_desc root (qname ns_sru "record")) as [|r0 recs] eqn:Hrs; [done|].
  rewrite collect_spec, Hf. eexists. done.
Qed.

(** ** [__init__] *)

(** Search terms are not escaped: a term holding a double quote followed by
    [ OR cql.serverChoice=] and a quote gives the query of two terms. *)
Theorem init_pd_query_split (a b : string) (m : Z) :
  p_query (params (init_pd (TList [a +:+ dq +:+ " OR cql.serverChoice=" +:+ dq +:+ b]) m)) =
  p_query (params (init_pd (TList [a; b]) m)).
Proof.
  cbn. unfold clause. rewrite !str_app_assoc. reflexivity.
Qed.

End ParlProofs.


(** * Witnesses, counterexamples and evaluations at concrete inputs *)

Lemma download_pdfs_drops_failed_urls_witness :
  [url_a; url_html] <> [] /\
  exists r, fst (download_pdfs env_repair [url_a; url_html] WNone st0) = inr r /\
    r = somes (map (fetch_outcome env_repair) [url_a; url_html]) /\
    length r <= length [url_a; url_html] /\
    (length r = length [url_a; url_html] <->
     Forall (fun u => is_Some (fetch_outcome env_repair u)) [url_a; url_html]).
Proof.
  split; [discriminate|].
  apply (download_pdfs_drops_failed_urls env_repair [url_a; url_html] WNone st0).
  discriminate.
Defined.

(** Claim C1, refuted: three URLs, one answered with a PDF, one with an
    HTML page, one with 404: the result has one entry, not three. *)
Lemma download_pdfs_one_outcome_per_url_fails :
  exists r, fst (download_pdfs env_repair [url_a; url_html; url_404] WNone st0) = inr r /\
    length r <> length [url_a; url_html; url_404].
Proof.
  exists [path_a]. split; [vm_compute; reflexivity|cbn; lia].
Qed.


(** Claim C3, code defect: after a repair the highlighted copy is written
    next to the temporary file, under a name derived from the temporary
    name, and not as [highlighted_kst-1.pdf] in the target folder. *)
Lemma repaired_highlighted_copy_in_tmp :
  fs (snd (download_pdfs env_repair [url_a] (WStr "budget") st0)) !! "/tmp/highlighted_tmpk3x9.pdf"
    = Some "%PDF-1.4 rebuilt annotated" /\
  fs (snd (download_pdfs env_repair [url_a] (WStr "budget") st0)) !! "downloaded_pdfs/highlighted_kst-1.pdf"
    = None.
Proof. vm_compute. split; reflexivity. Qed.

(** Claim C4, code defect: after a successful repair nothing deletes the
    temporary file; it is still on disk when [download_pdfs] returns,
    with or without highlights. *)
Lemma repair_tmp_file_left_on_disk :
  fs (snd (download_pdfs env_repair [url_a] (WStr "budget") st0)) !! "/tmp/tmpk3x9.pdf"
    = Some "%PDF-1.4 rebuilt" /\
  fs (snd (download_pdfs env_repair [url_a] (WStr "onderwijs") st0)) !! "/tmp/tmpk3x9.pdf"
    = Some "%PDF-1.4 rebuilt".
Proof. vm_compute. split; reflexivity. Qed.

Lemma highlight_words_repairs_at_most_once_witness :
  fs st_broken !! path_a = Some "%PDF-1.4 broken xref" /\
  trace (snd (highlight_words env_repair path_a ["budget"] st_broken)) =
    (trace st_broken ++ (if valid_bytes env_repair "%PDF-1.4 broken xref" then []
                         else [RepairCall path_a]))%list /\
  (valid_bytes env_repair "%PDF-1.4 broken xref" = false ->
   (forall c', pk_rewrite env_repair "%PDF-1.4 broken xref" = Some c' ->
               valid_bytes env_repair c' = false) ->
   fst (highlight_words env_repair path_a ["budget"] st_broken) = inr false).
Proof.
  split; [vm_compute; reflexivity|].
  apply (highlight_words_repairs_at_most_once env_repair path_a ["budget"] st_broken
           "%PDF-1.4 broken xref").
  vm_compute. reflexivity.
Defined.

(** Claim C6, code defect: when saving the highlighted copy fails,
    [_highlight_words] returns [False] with document 0 still open. *)
Lemma save_failure_leaves_document_open :
  fst (highlight_words env_save_fails path_a ["budget"] st_sound) = inr false /\
  docs (snd (highlight_words env_save_fails path_a ["budget"] st_sound)) !! 0
    = Some (mkDoc "%PDF-1.7 sound" [(0, 7)] false).
Proof. vm_compute. split; reflexivity. Qed.

Lemma download_pdf_rejects_non_pdf_witness :
  http_get env_repair url_html = Some (200%Z, "<html>Not found</html>") /\
  substring 0 4 "<html>Not found</html>" <> "%PDF" /\
  fst (download_pdf env_repair url_html st0) = inr None /\
  fs (snd (download_pdf env_repair url_html st0)) = fs st0.
Proof.
  split; [vm_compute; reflexivity|]. split; [vm_compute; discriminate|].
  apply (download_pdf_rejects_non_pdf env_repair url_html st0 200%Z "<html>Not found</html>").
  - vm_compute. reflexivity.
  - vm_compute. discriminate.
Defined.

(** Claim C7, refuted: an HTML page served with status 200 and a 404
    response give the same result, [None]: no FormatMismatch kind. *)
Lemma non_pdf_result_same_as_transport_failure :
  fst (download_pdf env_repair url_html st0) = inr None /\
  fst (download_pdf env_repair url_404 st0) = inr None.
Proof. vm_compute. split; reflexivity. Qed.

Lemma page_loop_partial_failures_witness :
  doc_is_open 0 "%PDF-1.4 rebuilt" st_open_doc /\
  fst (page_loop env_repair 0 ["budget"] st_open_doc) =
    inr (total_count env_repair "%PDF-1.4 rebuilt" ["budget"],
         any_failed env_repair "%PDF-1.4 rebuilt" ["budget"]) /\
  doc_is_open 0 "%PDF-1.4 rebuilt" (snd (page_loop env_repair 0 ["budget"] st_open_doc)).
Proof.
  split; [exists []; vm_compute; reflexivity|].
  apply (page_loop_partial_failures env_repair 0 "%PDF-1.4 rebuilt" ["budget"] st_open_doc).
  exists []. vm_compute. reflexivity.
Defined.


Lemma get_filename_from_url_after_last_slash_witness :
  has_slash "kst-1.pdf" = false /\
  get_filename_from_url ("https://zoek.officielebekendmakingen.nl" +:+ "/" +:+ "kst-1.pdf") = "kst-1.pdf".
Proof.
  split; [vm_compute; reflexivity|].
  apply get_filename_from_url_after_last_slash. vm_compute. reflexivity.
Defined.

Lemma repair_pdf_outcome_witness :
  fs st_broken !! path_a = Some "%PDF-1.4 broken xref" /\
  docs (snd (repair_pdf env_repair path_a st_broken)) = docs st_broken /\
  (fst (repair_pdf env_repair path_a st_broken) = inr None <->
     first_free env_repair (tmp_names env_repair) (fs st_broken) = None \/
     pk_rewrite env_repair "%PDF-1.4 broken xref" = None) /\
  match fst (repair_pdf env_repair path_a st_broken) with
  | inr None => fs (snd (repair_pdf env_repair path_a st_broken)) = fs st_broken
  | inr (Some rp) =>
      fs st_broken !! rp = None /\
      (exists n, n ∈ tmp_names env_repair /\ rp = path_join (tmp_dir env_repair) (n +:+ ".pdf")) /\
      exists c', pk_rewrite env_repair "%PDF-1.4 broken xref" = Some c' /\
        fs (snd (repair_pdf env_repair path_a st_broken)) = <[rp := c']> (fs st_broken)
  | inl _ => False
  end.
Proof.
  split; [vm_compute; reflexivity|].
  apply (repair_pdf_outcome env_repair path_a "%PDF-1.4 broken xref" st_broken).
  vm_compute. reflexivity.
Defined.

Lemma highlight_words_valid_file_witness :
  has_slash "kst-1.pdf" = false /\
  fs st_sound !! path_join "downloaded_pdfs" "kst-1.pdf" = Some "%PDF-1.7 sound" /\
  valid_bytes env_save_fails "%PDF-1.7 sound" = true /\
  let hp := path_join "downloaded_pdfs" ("highlighted_" +:+ "kst-1.pdf") in
  let r := highlight_words env_save_fails (path_join "downloaded_pdfs" "kst-1.pdf") ["budget"] st_sound in
  trace (snd r) = trace st_sound /\
  (forall d, d <> next_doc st_sound -> docs (snd r) !! d = docs st_sound !! d) /\
  exists a,
    if Nat.eqb (total_count env_save_fails "%PDF-1.7 sound" ["budget"]) 0 then
      fst r = inr true /\ fs (snd r) = fs st_sound /\
      docs (snd r) !! next_doc st_sound = Some (mkDoc "%PDF-1.7 sound" a true)
    else if fz_save_ok env_save_fails hp then
      fst r = inr true /\ fs (snd r) = <[hp := fz_render env_save_fails "%PDF-1.7 sound" a]> (fs st_sound) /\
      docs (snd r) !! next_doc st_sound = Some (mkDoc "%PDF-1.7 sound" a true)
    else
      fst r = inr false /\
      docs (snd r) !! next_doc st_sound = Some (mkDoc "%PDF-1.7 sound" a false).
Proof.
  split; [vm_compute; reflexivity|]. split; [vm_compute; reflexivity|].
  split; [vm_compute; reflexivity|].
  apply (highlight_words_valid_file env_save_fails "downloaded_pdfs" "kst-1.pdf" "%PDF-1.7 sound"
           ["budget"] st_sound).
  - vm_compute. reflexivity.
  - vm_compute. reflexivity.
  - vm_compute. reflexivity.
Defined.

Lemma download_pdfs_keeps_other_files_witness :
  String.prefix "highlighted_" (path_name path_a) = false /\
  foldl (fun f u => apply_write (fetch_write env_repair u) f) (fs st0) [url_a] !! path_a
    = Some "%PDF-1.4 broken xref" /\
  fs (snd (download_pdfs env_repair [url_a] (WStr "budget") st0)) !! path_a
    = Some "%PDF-1.4 broken xref".
Proof.
  split; [vm_compute; reflexivity|]. split; [vm_compute; reflexivity|].
  apply (download_pdfs_keeps_other_files env_repair [url_a] (WStr "budget") st0 path_a
           "%PDF-1.4 broken xref").
  - vm_compute. reflexivity.
  - vm_compute. reflexivity.
Defined.

Lemma highlight_words_missing_file_witness :
  fs st0 !! "downloaded_pdfs/kst-9.pdf" = None /\
  (forall n, n ∈ tmp_names env_repair ->
     "downloaded_pdfs/kst-9.pdf" <> path_join (tmp_dir env_repair) (n +:+ ".pdf")) /\
  fst (highlight_words env_repair "downloaded_pdfs/kst-9.pdf" ["budget"] st0) = inr false /\
  fs (snd (highlight_words env_repair "downloaded_pdfs/kst-9.pdf" ["budget"] st0)) = fs st0 /\
  docs (snd (highlight_words env_repair "downloaded_pdfs/kst-9.pdf" ["budget"] st0)) = docs st0 /\
  trace (snd (highlight_words env_repair "downloaded_pdfs/kst-9.pdf" ["budget"] st0)) =
    (trace st0 ++ [RepairCall "downloaded_pdfs/kst-9.pdf"])%list.
Proof.
  assert (Htmp : forall n, n ∈ tmp_names env_repair ->
            "downloaded_pdfs/kst-9.pdf" <> path_join (tmp_dir env_repair) (n +:+ ".pdf")).
  { intros n Hn Heq. apply list_elem_of_singleton in Hn. subst n.
    vm_compute in Heq. discriminate Heq. }
  split; [vm_compute; reflexivity|]. split; [exact Htmp|].
  apply (highlight_words_missing_file env_repair "downloaded_pdfs/kst-9.pdf" ["budget"] st0).
  - vm_compute. reflexivity.
  - exact Htmp.
Defined.

Lemma highlight_words_unrepairable_witness :
  fs st_garbage !! path_a = Some "%PDF garbage" /\
  valid_bytes env_unreadable "%PDF garbage" = false /\
  pk_rewrite env_unreadable "%PDF garbage" = None /\
  fst (highlight_words env_unreadable path_a ["budget"] st_garbage) = inr false /\
  fs (snd (highlight_words env_unreadable path_a ["budget"] st_garbage)) = fs st_garbage /\
  docs (snd (highlight_words env_unreadable path_a ["budget"] st_garbage)) =
    (if fz_open_ok env_unreadable "%PDF garbage"
     then <[next_doc st_garbage := mkDoc "%PDF garbage" []
              (negb (Nat.eqb (fz_npages env_unreadable "%PDF garbage") 0))]> (docs st_garbage)
     else docs st_garbage) /\
  trace (snd (highlight_words env_unreadable path_a ["budget"] st_garbage)) =
    (trace st_garbage ++ [RepairCall path_a])%list.
Proof.
  split; [vm_compute; reflexivity|]. split; [vm_compute; reflexivity|]. split; [reflexivity|].
  apply (highlight_words_unrepairable env_unreadable path_a "%PDF garbage" ["budget"] st_garbage).
  - vm_compute. reflexivity.
  - vm_compute. reflexivity.
  - reflexivity.
Defined.

Lemma build_record_fields_witness :
  find_child rec_k1 (qname ns_sru "recordData") =
    Some (Elem (qname ns_sru "recordData") None [Elem (qname ns_dcterms "identifier") (Some " kst-1 ") []]) /\
  (forall k, is_Some (build_record rec_k1 !! k) <-> k ∈ csv_fieldnames) /\
  (forall k v, k <> "pdf_url" -> build_record rec_k1 !! k = Some v -> strip v = v) /\
  exists id, build_record rec_k1 !! "identifier" = Some id /\
    build_record rec_k1 !! "pdf_url" =
      Some (if String.eqb id "" then "" else pdf_url_prefix +:+ id +:+ ".pdf").
Proof.
  split; [vm_compute; reflexivity|].
  apply (build_record_fields rec_k1
           (Elem (qname ns_sru "recordData") None [Elem (qname ns_dcterms "identifier") (Some " kst-1 ") []])).
  vm_compute. reflexivity.
Defined.

Lemma write_csv_built_records_witness :
  (is_Some (pfs (ps_with "out.csv" "old") !! "out.csv") -> csv_removable parl_env "out.csv" = true) /\
  csv_writable parl_env "out.csv" = true /\
  csv_write_ok parl_env "out.csv"
    (csv_row csv_fieldnames +:+ fst (csv_rows (map build_record [rec_k1]))) = true /\
  fst (write_csv parl_env (map build_record [rec_k1]) "out.csv" (ps_with "out.csv" "old")) = inr tt /\
  pfs (snd (write_csv parl_env (map build_record [rec_k1]) "out.csv" (ps_with "out.csv" "old"))) =
    <["out.csv" := csv_row csv_fieldnames +:+ fst (csv_rows (map build_record [rec_k1]))]>
      (pfs (ps_with "out.csv" "old")).
Proof.
  assert (Hrm : is_Some (pfs (ps_with "out.csv" "old") !! "out.csv") ->
                csv_removable parl_env "out.csv" = true) by (intros _; reflexivity).
  split; [exact Hrm|]. split; [reflexivity|]. split; [reflexivity|].
  exact (write_csv_built_records parl_env [rec_k1] "out.csv" (ps_with "out.csv" "old")
           Hrm eq_refl eq_refl).
Defined.

Lemma write_csv_extra_key_witness :
  Forall keys_ok [build_record rec_k1] /\
  is_Some ((<["note" := "x"]> (build_record rec_k1) : dict) !! "note") /\
  ("note" ∉ csv_fieldnames) /\
  (is_Some (pfs (ps_with "out.csv" "old") !! "out.csv") -> csv_removable parl_env "out.csv" = true) /\
  csv_writable parl_env "out.csv" = true /\
  csv_write_ok parl_env "out.csv" (csv_row csv_fieldnames +:+ fst (csv_rows [build_record rec_k1])) = true /\
  fst (write_csv parl_env ([build_record rec_k1] ++ [<["note" := "x"]> (build_record rec_k1)])
         "out.csv" (ps_with "out.csv" "old")) = inl "ValueError" /\
  pfs (snd (write_csv parl_env ([build_record rec_k1] ++ [<["note" := "x"]> (build_record rec_k1)])
              "out.csv" (ps_with "out.csv" "old"))) =
    <["out.csv" := csv_row csv_fieldnames +:+ fst (csv_rows [build_record rec_k1])]>
      (pfs (ps_with "out.csv" "old")).
Proof.
  assert (H1 : Forall keys_ok [build_record rec_k1]).
  { constructor; [apply build_record_keys_ok|constructor]. }
  assert (Hk : is_Some ((<["note" := "x"]> (build_record rec_k1) : dict) !! "note")).
  { exists "x". vm_compute. reflexivity. }
  assert (Hnk : "note" ∉ csv_fieldnames).
  { apply (bool_decide_unpack _). vm_compute. reflexivity. }
  assert (Hrm : is_Some (pfs (ps_with "out.csv" "old") !! "out.csv") ->
                csv_removable parl_env "out.csv" = true) by (intros _; reflexivity).
  split; [exact H1|]. split; [exact Hk|]. split; [exact Hnk|]. split; [exact Hrm|].
  split; [reflexivity|]. split; [reflexivity|].
  exact (write_csv_extra_key parl_env [build_record rec_k1] (<["note" := "x"]> (build_record rec_k1)) []
           "note" "out.csv" (ps_with "out.csv" "old") H1 Hk Hnk Hrm eq_refl eq_refl).
Defined.




Lemma fetch_records_k1 :
  fetch_records parl_env 3 ps0 =
    Some (inr ([build_record rec_k1], [pdf_url_prefix +:+ "kst-1" +:+ ".pdf"]), ps_k1).
Proof. vm_compute. reflexivity. Qed.

Lemma fetch_records_result_witness :
  fetch_records parl_env 3 ps0 =
    Some (inr ([build_record rec_k1], [pdf_url_prefix +:+ "kst-1" +:+ ".pdf"]), ps_k1) /\
  [pdf_url_prefix +:+ "kst-1" +:+ ".pdf"] = nonempty_urls [build_record rec_k1] /\
  Forall (fun r => is_Some (r !! "pdf_url")) [build_record rec_k1] /\
  start_record (obj ps_k1) = (start_record (obj ps0) + Z.of_nat (length [build_record rec_k1]))%Z.
Proof.
  split; [exact fetch_records_k1|].
  exact (fetch_records_result parl_env 3 ps0 _ _ _ fetch_records_k1).
Defined.

Lemma fetch_records_requests_witness :
  obj ps0 = init_pd (TList ["doorstroomtoets"]) 50 /\
  fetch_records parl_env 3 ps0 =
    Some (inr ([build_record rec_k1], [pdf_url_prefix +:+ "kst-1" +:+ ".pdf"]), ps_k1) /\
  exists l, sent ps_k1 = (sent ps0 ++ params (init_pd (TList ["doorstroomtoets"]) 50) :: l)%list /\
    Forall (fun p => p_query p = p_query (params (init_pd (TList ["doorstroomtoets"]) 50)) /\
                     p_maximumRecords p = 50%Z) l /\
    StronglySorted Z.lt (map p_startRecord (params (init_pd (TList ["doorstroomtoets"]) 50) :: l)).
Proof.
  split; [reflexivity|]. split; [exact fetch_records_k1|].
  exact (fetch_records_requests parl_env 3 (TList ["doorstroomtoets"]) 50 ps0 _ ps_k1
           eq_refl fetch_records_k1).
Defined.

Lemma fetch_records_terminates_witness :
  (forall p status c root t, sru_get parl_env p = Some (status, c) -> xml_parse parl_env c = Some root ->
     py_int (findtext_desc root (qname ns_sru "numberOfRecords") "0") = Some t -> (t <= 3)%Z) /\
  (Z.to_nat (3 + 1 - start_record (obj ps0)) < 4)%nat /\
  is_Some (fetch_records parl_env 4 ps0).
Proof.
  assert (Hbound : forall p status c root t, sru_get parl_env p = Some (status, c) ->
            xml_parse parl_env c = Some root ->
            py_int (findtext_desc root (qname ns_sru "numberOfRecords") "0") = Some t -> (t <= 3)%Z).
  { intros p status c root t _ Hp Ht. cbn in Hp.
    destruct (String.eqb c "page1");
      [injection Hp as <-; vm_compute in Ht; injection Ht as <-; lia|].
    destruct (String.eqb c "page2");
      [injection Hp as <-; vm_compute in Ht; injection Ht as <-; lia|discriminate]. }
  assert (Hfuel : (Z.to_nat (3 + 1 - start_record (obj ps0)) < 4)%nat) by (vm_compute; lia).
  split; [exact Hbound|]. split; [exact Hfuel|].
  exact (fetch_records_terminates parl_env 3 4 ps0 Hbound Hfuel).
Defined.

Lemma fetch_records_record_without_data_witness :
  sru_get parl_env (params (obj ps_second)) = Some (200%Z, "page2") /\
  http_error 200 = false /\
  xml_parse parl_env "page2" = Some (sru_page "3" [rec_k1; rec_nodata]) /\
  find_desc (sru_page "3" [rec_k1; rec_nodata]) (qname ns_diag "diagnostic") = None /\
  In rec_nodata (findall_desc (sru_page "3" [rec_k1; rec_nodata]) (qname ns_sru "record")) /\
  find_child rec_nodata (qname ns_sru "recordData") = None /\
  exists s', fetch_records parl_env 1 ps_second = Some (inl "KeyError", s') /\
    sent s' = (sent ps_second ++ [params (obj ps_second)])%list /\ obj s' = obj ps_second.
Proof.
  assert (Hin : In rec_nodata (findall_desc (sru_page "3" [rec_k1; rec_nodata]) (qname ns_sru "record"))).
  { vm_compute. right. left. reflexivity. }
  split; [reflexivity|]. split; [reflexivity|]. split; [reflexivity|].
  split; [vm_compute; reflexivity|]. split; [exact Hin|]. split; [reflexivity|].
  apply (fetch_records_record_without_data parl_env 0 ps_second 200%Z "page2"
           (sru_page "3" [rec_k1; rec_nodata]) rec_nodata).
  - reflexivity.
  - reflexivity.
  - reflexivity.
  - vm_compute. reflexivity.
  - exact Hin.
  - reflexivity.
Defined.
